(** * The AVR/Arduino hardware simulator core

    A shallow embedding of [tools/simulator/avr_simulator.py]: the GPIO pins,
    the timers, the serial channel and the simulated clock of [AVRSimulator],
    the Arduino calls that mutate them ([arduino_pinMode],
    [arduino_digitalWrite], [arduino_analogWrite], [arduino_serial_begin],
    [arduino_serial_print], [arduino_serial_println], [arduino_delay]), the
    line interpreter ([execute_line], [parse_and_execute_code]), the scheduler
    ([simulation_loop], [run_code]), [reset_simulation] and the handlers of
    the control panel ([send_serial_input], [set_pin_mode], [set_pin_state]).

    What is modelled and what is not:
    - Python [int] is [Z]; Python [float] is an IEEE 754 binary64 value
      ([spec_float] with precision 53 and maximal exponent 1024, rounding to
      nearest even), so sums such as [simulation_time += 0.001] round as they
      do in the interpreter;
    - the dictionaries [self.pins] and [self.timers] are finite maps keyed by
      integers; [self.pins[pin].field = v] on a present key is [alter];
    - exceptions are explicit: a call either returns or raises, and
      [parse_and_execute_code] catches what [execute_line] raises;
    - the Tk widgets ([root.after], [status_var], [pin_widgets], the serial
      monitor text box) and [print] are presentation only and are left out;
    - [time.sleep] is the host's, not the simulator's: it blocks the worker
      thread and returns, or it raises at once without blocking; which lengths
      it refuses depends on the interpreter and the operating system, so the
      simulator carries it as [time_sleep], and [cpython_sleep] is the one the
      closed examples run on;
    - the wall-clock time a pass of the scheduler took, which it measures
      with [time.time], is an input of each pass;
    - the text of a routine is taken after the pattern matching of
      [execute_line]: a [Line] is the call a source line was recognised as,
      with the arguments the regular expression captured. *)

From Stdlib Require Import ZArith String List Bool DecimalString.
From Stdlib Require Import Floats.SpecFloat.
From stdpp Require Import gmap strings list fin_maps.

Local Open Scope Z_scope.

(** ** Python numbers *)

Inductive exn : Type :=
| ZeroDivisionError
| OverflowError
| ValueError
| OSError.

Inductive result (A : Type) : Type :=
| Ok (a : A)
| Raise (e : exn).
Arguments Ok {A} a.
Arguments Raise {A} e.

Module Float64.

Definition float : Type := spec_float.

Definition prec : Z := 53.
Definition emax : Z := 1024.

(** The double nearest to an integer (ties to even); an integer beyond the
    range of doubles rounds to an infinity. *)
Definition of_Z (n : Z) : float := binary_normalize prec emax n 0 false.

Definition zero : float := S754_zero false.
Definition one : float := Eval vm_compute in of_Z 1.
Definition four : float := Eval vm_compute in of_Z 4.
Definition thousand : float := Eval vm_compute in of_Z 1000.

(** The literal [0.001]: 0x1.0624dd2f1a9fcp-10. *)
Definition milli : float := S754_finite false 4611686018427388 (-62).

Definition two : float := Eval vm_compute in of_Z 2.
Definition billion : float := Eval vm_compute in of_Z 1000000000.
Definition two63 : float := Eval vm_compute in of_Z (2 ^ 63).

Definition add : float -> float -> float := SFadd prec emax.
Definition sub : float -> float -> float := SFsub prec emax.
Definition mul : float -> float -> float := SFmul prec emax.
Definition div : float -> float -> float := SFdiv prec emax.
Definition abs : float -> float := SFabs.
Definition eqb : float -> float -> bool := SFeqb.
Definition ltb : float -> float -> bool := SFltb.

Definition is_infinity (x : float) : bool :=
  match x with
  | S754_infinity _ => true
  | _ => false
  end.

(** [float(n)] for an [int]: OverflowError when [n] is too large. *)
Definition of_int (n : Z) : result float :=
  let x := of_Z n in
  if is_infinity x then Raise OverflowError else Ok x.

(** [a / b] on floats: ZeroDivisionError when [b] is a zero. *)
Definition truediv (a b : float) : result float :=
  if eqb b zero then Raise ZeroDivisionError else Ok (div a b).

(** [n / b] for an [int] [n] and a float [b]: [n] is converted first. *)
Definition int_truediv (n : Z) (b : float) : result float :=
  match of_int n with
  | Ok a => truediv a b
  | Raise e => Raise e
  end.

End Float64.

Abbreviation float := Float64.float.

(** [time.sleep] as CPython 3.11 checks its argument before it blocks
    (Python/pytime.c, Modules/timemodule.c): a NaN is a ValueError; the length
    is turned into nanoseconds, [seconds * 1e9], and a count beyond the 64-bit
    range, in either direction, is an OverflowError; a count of exactly 2^63
    wraps to a negative one, and a negative count is a ValueError.  A length
    that passes these checks is taken to be slept.  (The operating system may
    refuse more: on Linux the system call fails for a length within the
    machine's up time of the limit of about 9.22e9 seconds.  The examples
    below sleep at most 1e9 seconds, or are refused with at least 1e10.) *)
Definition cpython_sleep (seconds : float) : result unit :=
  match seconds with
  | S754_nan => Raise ValueError
  | _ =>
      let nanoseconds := Float64.mul seconds Float64.billion in
      if Float64.ltb Float64.two63 (Float64.abs nanoseconds)
      then Raise OverflowError
      else if Float64.eqb nanoseconds Float64.two63 then Raise ValueError
      else if Float64.ltb nanoseconds Float64.zero then Raise ValueError
      else Ok tt
  end.

(** ** Data model *)

Inductive PinMode : Type :=
| INPUT
| OUTPUT
| INPUT_PULLUP.

Inductive PinState : Type :=
| LOW
| HIGH.

Global Instance PinMode_eq_dec : EqDecision PinMode.
Proof. solve_decision. Defined.

Global Instance PinState_eq_dec : EqDecision PinState.
Proof. solve_decision. Defined.

Record GPIOPin : Type := mkGPIOPin {
  number : Z;
  mode : PinMode;
  state : PinState;
  analog_value : Z;
  pwm_value : Z;
  pwm_enabled : bool;
  last_change : float
}.

Record TimerConfig : Type := mkTimerConfig {
  timer_id : Z;
  prescaler : Z;
  compare_value : Z;
  counter_value : Z;
  overflow_count : Z;
  pwm_mode : bool;
  frequency : float;
  duty_cycle : float
}.

Record SerialData : Type := mkSerialData {
  tx_buffer : list string;
  rx_buffer : list string;
  baud_rate : Z;
  tx_count : Z;
  rx_count : Z
}.

(** A source line as [execute_line] recognises it. *)
Inductive Line : Type :=
| Comment
| PinModeCall (pin : Z) (mode_name : string)
| DigitalWriteCall (pin : Z) (state_name : string)
| AnalogWriteCall (pin : Z) (value : Z)
| SerialBeginCall (baud : Z)
| SerialPrintlnCall (text : string)
| SerialPrintCall (text : string)
| DelayCall (ms : Z)
| Unrecognised.

(** The simulator object. [speed_var] holds the number that
    [float(self.speed_var.get().replace('x', ''))] yields for the selected
    speed; [setup_code] and [loop_code] are the two extracted routines.
    [time_sleep] is no attribute of the object: it is the [time.sleep] of the
    host the object runs on, carried along so that the methods can call it. *)
Record AVRSimulator : Type := mkAVRSimulator {
  pins : gmap Z GPIOPin;
  timers : gmap Z TimerConfig;
  serial : SerialData;
  running : bool;
  simulation_time : float;
  clock_frequency : Z;
  sim_running : bool;
  speed_var : float;
  setup_code : list Line;
  loop_code : list Line;
  time_sleep : float -> result unit
}.

(** Field assignments. *)

Definition set_mode (m : PinMode) (p : GPIOPin) : GPIOPin :=
  mkGPIOPin (number p) m (state p) (analog_value p) (pwm_value p)
            (pwm_enabled p) (last_change p).

Definition set_state (v : PinState) (t : float) (p : GPIOPin) : GPIOPin :=
  mkGPIOPin (number p) (mode p) v (analog_value p) (pwm_value p)
            (pwm_enabled p) t.

Definition set_analog_value (v : Z) (p : GPIOPin) : GPIOPin :=
  mkGPIOPin (number p) (mode p) (state p) v (pwm_value p)
            (pwm_enabled p) (last_change p).

Definition set_pwm (v : Z) (p : GPIOPin) : GPIOPin :=
  mkGPIOPin (number p) (mode p) (state p) (analog_value p) v
            true (last_change p).

Definition with_pins (ps : gmap Z GPIOPin) (s : AVRSimulator) : AVRSimulator :=
  mkAVRSimulator ps (timers s) (serial s) (running s) (simulation_time s)
                 (clock_frequency s) (sim_running s) (speed_var s)
                 (setup_code s) (loop_code s) (time_sleep s).

Definition with_serial (d : SerialData) (s : AVRSimulator) : AVRSimulator :=
  mkAVRSimulator (pins s) (timers s) d (running s) (simulation_time s)
                 (clock_frequency s) (sim_running s) (speed_var s)
                 (setup_code s) (loop_code s) (time_sleep s).

Definition with_simulation_time (t : float) (s : AVRSimulator) : AVRSimulator :=
  mkAVRSimulator (pins s) (timers s) (serial s) (running s) t
                 (clock_frequency s) (sim_running s) (speed_var s)
                 (setup_code s) (loop_code s) (time_sleep s).

Definition with_sim_running (b : bool) (s : AVRSimulator) : AVRSimulator :=
  mkAVRSimulator (pins s) (timers s) (serial s) (running s) (simulation_time s)
                 (clock_frequency s) b (speed_var s)
                 (setup_code s) (loop_code s) (time_sleep s).

Definition with_speed_var (v : float) (s : AVRSimulator) : AVRSimulator :=
  mkAVRSimulator (pins s) (timers s) (serial s) (running s) (simulation_time s)
                 (clock_frequency s) (sim_running s) v
                 (setup_code s) (loop_code s) (time_sleep s).

(** The same simulator object on another host. *)
Definition with_time_sleep (sleep : float -> result unit) (s : AVRSimulator)
  : AVRSimulator :=
  mkAVRSimulator (pins s) (timers s) (serial s) (running s) (simulation_time s)
                 (clock_frequency s) (sim_running s) (speed_var s)
                 (setup_code s) (loop_code s) sleep.

Definition with_code (setup loop : list Line) (s : AVRSimulator) : AVRSimulator :=
  mkAVRSimulator (pins s) (timers s) (serial s) (running s) (simulation_time s)
                 (clock_frequency s) (sim_running s) (speed_var s)
                 setup loop (time_sleep s).

(** ** Construction *)

Definition default_pin (n : Z) : GPIOPin :=
  mkGPIOPin n INPUT LOW 0 0 false Float64.zero.

Definition default_timer (n : Z) : TimerConfig :=
  mkTimerConfig n 1 0 0 0 false Float64.zero Float64.zero.

Definition default_serial : SerialData :=
  mkSerialData [] [] 9600 0 0.

(** [init_gpio_pins]: digital pins 0-13, analog pins 14-19 with the middle
    value 512, then the three special configurations. *)
Definition init_gpio_pins : gmap Z GPIOPin :=
  let digital :=
    foldl (fun m pin => <[pin := default_pin pin]> m) ∅ (seqZ 0 14) in
  let analog :=
    foldl (fun m pin => <[pin := set_analog_value 512 (default_pin pin)]> m)
          digital (seqZ 14 6) in
  alter (set_mode OUTPUT) 1
    (alter (set_mode INPUT) 0
       (alter (set_mode OUTPUT) 13 analog)).

Definition init_timers : gmap Z TimerConfig :=
  <[2 := default_timer 2]> (<[1 := default_timer 1]> (<[0 := default_timer 0]> ∅)).

(** The simulator after [__init__] and [create_gui], whose speed selector
    starts at "1x", on a CPython host. *)
Definition new_simulator : AVRSimulator :=
  mkAVRSimulator init_gpio_pins init_timers default_serial false
                 Float64.zero 16000000 false Float64.one [] [] cpython_sleep.

(** ** Arduino calls *)

Definition mode_of_name (name : string) : option PinMode :=
  if String.eqb name "OUTPUT" then Some OUTPUT
  else if String.eqb name "INPUT" then Some INPUT
  else if String.eqb name "INPUT_PULLUP" then Some INPUT_PULLUP
  else None.

Definition arduino_pinMode (pin : Z) (mode_name : string) (s : AVRSimulator)
  : AVRSimulator :=
  match pins s !! pin with
  | None => s
  | Some _ =>
      match mode_of_name mode_name with
      | Some m => with_pins (alter (set_mode m) pin (pins s)) s
      | None => s
      end
  end.

Definition arduino_digitalWrite (pin : Z) (state_name : string) (s : AVRSimulator)
  : AVRSimulator :=
  match pins s !! pin with
  | None => s
  | Some p =>
      if decide (mode p = OUTPUT) then
        let pin_state := if String.eqb state_name "HIGH" then HIGH else LOW in
        with_pins (alter (set_state pin_state (simulation_time s)) pin (pins s)) s
      else s
  end.

Definition arduino_analogWrite (pin : Z) (value : Z) (s : AVRSimulator)
  : AVRSimulator :=
  match pins s !! pin with
  | None => s
  | Some _ =>
      with_pins (alter (set_pwm (Z.max 0 (Z.min 255 value))) pin (pins s)) s
  end.

Definition serial_output (text : string) (s : AVRSimulator) : AVRSimulator :=
  let d := serial s in
  with_serial
    (mkSerialData (tx_buffer d ++ [text]) (rx_buffer d) (baud_rate d)
                  (tx_count d + Z.of_nat (String.length text)) (rx_count d))
    s.

Definition newline : string := String (Ascii.ascii_of_nat 10) EmptyString.

(** [str(n)] for an [int]. *)
Definition str_of_int (n : Z) : string := NilZero.string_of_int (Z.to_int n).

Definition arduino_serial_begin (baud : Z) (s : AVRSimulator) : AVRSimulator :=
  let d := serial s in
  let s1 :=
    with_serial
      (mkSerialData (tx_buffer d) (rx_buffer d) baud (tx_count d) (rx_count d))
      s in
  serial_output
    ("Serial communication started at " ++ str_of_int baud ++ " baud" ++ newline)
    s1.

Definition arduino_serial_println (text : string) (s : AVRSimulator)
  : AVRSimulator :=
  serial_output (text ++ newline) s.

Definition arduino_serial_print (text : string) (s : AVRSimulator)
  : AVRSimulator :=
  serial_output text s.

(** ** Calls that may raise *)

Inductive outcome : Type :=
| Returned (s : AVRSimulator)
| Raised (e : exn) (s : AVRSimulator).

Definition final_state (o : outcome) : AVRSimulator :=
  match o with
  | Returned s => s
  | Raised _ s => s
  end.

(** [arduino_delay]: the sleep comes before the simulated time is advanced,
    so a sleep that raises leaves the time as it was. *)
Definition arduino_delay (ms : Z) (s : AVRSimulator) : outcome :=
  match Float64.int_truediv ms Float64.thousand with
  | Raise e => Raised e s
  | Ok delay_seconds =>
      match Float64.truediv delay_seconds (speed_var s) with
      | Raise e => Raised e s
      | Ok actual_delay =>
          let slept :=
            if Float64.ltb Float64.milli actual_delay
            then time_sleep s actual_delay
            else Ok tt in
          match slept with
          | Raise e => Raised e s
          | Ok _ =>
              Returned
                (with_simulation_time
                   (Float64.add (simulation_time s) delay_seconds) s)
          end
      end
  end.

(** ** The interpreter *)

Definition execute_line (line : Line) (s : AVRSimulator) : outcome :=
  match line with
  | Comment => Returned s
  | PinModeCall pin mode_name => Returned (arduino_pinMode pin mode_name s)
  | DigitalWriteCall pin state_name =>
      Returned (arduino_digitalWrite pin state_name s)
  | AnalogWriteCall pin value => Returned (arduino_analogWrite pin value s)
  | SerialBeginCall baud => Returned (arduino_serial_begin baud s)
  | SerialPrintlnCall text => Returned (arduino_serial_println text s)
  | SerialPrintCall text => Returned (arduino_serial_print text s)
  | DelayCall ms => arduino_delay ms s
  | Unrecognised => Returned s
  end.

(** [for line in lines: try: execute_line(line) except Exception: print(...)]:
    an exception ends the line, not the routine. *)
Fixpoint parse_and_execute_code (code : list Line) (s : AVRSimulator)
  : AVRSimulator :=
  match code with
  | [] => s
  | line :: rest =>
      parse_and_execute_code rest (final_state (execute_line line s))
  end.

Definition execute_setup (s : AVRSimulator) : AVRSimulator :=
  serial_output ("Arduino setup completed!" ++ newline)
                (parse_and_execute_code (setup_code s) s).

Definition execute_loop (s : AVRSimulator) : AVRSimulator :=
  parse_and_execute_code (loop_code s) s.

(** ** The scheduler *)

(** The pacing at the end of a pass: [target_time = 0.001 / speed_multiplier]
    is computed, and may raise, before it is compared with [loop_time], the
    wall-clock time the pass took; a shorter pass sleeps the difference. *)
Definition pace (sleep : float -> result unit) (speed_multiplier loop_time : float)
  : result unit :=
  match Float64.truediv Float64.milli speed_multiplier with
  | Raise e => Raise e
  | Ok target_time =>
      if Float64.ltb loop_time target_time
      then sleep (Float64.sub target_time loop_time)
      else Ok tt
  end.

(** One pass through the body of [while self.sim_running] that took
    [loop_time] seconds of wall-clock time: the loop routine, one millisecond
    of simulated time, then the pacing.  What the pacing raises is not caught
    inside the loop. *)
Definition loop_iteration (loop_time : float) (s : AVRSimulator) : outcome :=
  let s1 := execute_loop s in
  let s2 :=
    with_simulation_time (Float64.add (simulation_time s1) Float64.milli) s1 in
  match pace (time_sleep s2) (speed_var s2) loop_time with
  | Raise e => Raised e s2
  | Ok _ => Returned s2
  end.

(** One pass for each measured loop time, or fewer when the flag is found
    cleared or a pass raises. *)
Fixpoint loop_iterations (loop_times : list float) (s : AVRSimulator) : outcome :=
  match loop_times with
  | [] => Returned s
  | loop_time :: rest =>
      if sim_running s then
        match loop_iteration loop_time s with
        | Returned s' => loop_iterations rest s'
        | Raised e s' => Raised e s'
        end
      else Returned s
  end.

(** [simulation_loop], observed when the stop request arrives after the
    passes whose wall-clock times are [loop_times]: setup once, the passes,
    and [finally: self.sim_running = False]. *)
Definition simulation_loop (loop_times : list float) (s : AVRSimulator)
  : AVRSimulator :=
  with_sim_running false
    (final_state (loop_iterations loop_times (execute_setup s))).

Definition stop_simulation (s : AVRSimulator) : AVRSimulator :=
  with_sim_running false s.

Definition reset_pin (p : GPIOPin) : GPIOPin :=
  mkGPIOPin (number p) (mode p) LOW
            (if 14 <=? number p then 512 else 0) 0 false Float64.zero.

Definition reset_timer (t : TimerConfig) : TimerConfig :=
  mkTimerConfig (timer_id t) (prescaler t) (compare_value t) 0 0 (pwm_mode t)
                Float64.zero Float64.zero.

Definition reset_simulation (s : AVRSimulator) : AVRSimulator :=
  let s0 := stop_simulation s in
  mkAVRSimulator (reset_pin <$> pins s0) (reset_timer <$> timers s0)
                 (mkSerialData [] [] (baud_rate (serial s0)) 0 0)
                 (running s0) Float64.zero (clock_frequency s0)
                 (sim_running s0) (speed_var s0)
                 (setup_code s0) (loop_code s0) (time_sleep s0).

(** [compile_code] stores the two extracted routines. *)
Definition compile_code (setup loop : list Line) (s : AVRSimulator)
  : AVRSimulator :=
  with_code setup loop s.

(** [run_code]: refused while a simulation runs; otherwise reset, raise the
    flag and hand over to the worker. *)
Definition run_code (loop_times : list float) (s : AVRSimulator)
  : AVRSimulator :=
  if sim_running s then s
  else simulation_loop loop_times (with_sim_running true (reset_simulation s)).

(** ** Lines and routines the properties speak about *)

(** The pin a line names, when it names one. *)
Definition referenced_pin (line : Line) : option Z :=
  match line with
  | PinModeCall pin _ => Some pin
  | DigitalWriteCall pin _ => Some pin
  | AnalogWriteCall pin _ => Some pin
  | _ => None
  end.

(** Scenario C: open the channel, then emit twice. *)
Definition open_and_emit_twice : list Line :=
  [SerialBeginCall 9600; SerialPrintCall "hi"; SerialPrintCall "hi"].

Definition begin_announcement_9600 : string :=
  "Serial communication started at 9600 baud" ++ newline.

(** Scenario A: the blinking LED. *)
Definition blink_setup : list Line := [PinModeCall 13 "OUTPUT"].

Definition blink_loop : list Line :=
  [DigitalWriteCall 13 "HIGH"; DelayCall 1000;
   DigitalWriteCall 13 "LOW"; DelayCall 1000].

Definition blink_simulator : AVRSimulator :=
  compile_code blink_setup blink_loop new_simulator.

(** The literal [4.002]: 0x1.0020c49ba5e35p+2. *)
Definition four_and_two_milli : float :=
  S754_finite false 4505851427184181 (-50).

(** The six entries of the speed selector: 0.1x, 0.5x, 1x, 2x, 5x, 10x. *)
Definition speed_choices : list float :=
  [Float64.div (Float64.of_Z 1) (Float64.of_Z 10);
   Float64.div (Float64.of_Z 1) (Float64.of_Z 2);
   Float64.of_Z 1; Float64.of_Z 2; Float64.of_Z 5; Float64.of_Z 10].

(** ** Handlers of the control panel *)

(** [send_serial_input], with the text of the entry box as argument. *)
Definition send_serial_input (input_text : string) (s : AVRSimulator)
  : AVRSimulator :=
  match input_text with
  | EmptyString => s
  | _ =>
      let d := serial s in
      serial_output
        (">> " ++ input_text ++ newline)
        (with_serial
           (mkSerialData (tx_buffer d) (rx_buffer d ++ [(input_text ++ newline)%string])
                         (baud_rate d) (tx_count d) (rx_count d))
           s)
  end.

Definition set_pin_mode (pin : Z) (mode_name : string) (s : AVRSimulator)
  : AVRSimulator :=
  match pins s !! pin with
  | None => s
  | Some _ =>
      if String.eqb mode_name "OUTPUT"
      then with_pins (alter (set_mode OUTPUT) pin (pins s)) s
      else if String.eqb mode_name "INPUT"
      then with_pins (alter (set_mode INPUT) pin (pins s)) s
      else if String.eqb mode_name "INPUT_PULLUP"
      then with_pins (alter (set_mode INPUT_PULLUP) pin (pins s)) s
      else s
  end.

(** The assignment [self.pins[pin].state = v] alone. *)
Definition set_level (v : PinState) (p : GPIOPin) : GPIOPin :=
  mkGPIOPin (number p) (mode p) v (analog_value p) (pwm_value p)
            (pwm_enabled p) (last_change p).

Definition set_pin_state (pin : Z) (high : bool) (s : AVRSimulator)
  : AVRSimulator :=
  match pins s !! pin with
  | None => s
  | Some p =>
      if decide (mode p = OUTPUT)
      then with_pins
             (alter (set_level (if high then HIGH else LOW)) pin (pins s)) s
      else s
  end.

(** ** Notions the further properties speak about *)

(** What a line hands to [serial_output]. *)
Definition emitted (line : Line) : list string :=
  match line with
  | SerialBeginCall baud =>
      [("Serial communication started at " ++ str_of_int baud ++ " baud"
          ++ newline)%string]
  | SerialPrintlnCall text => [(text ++ newline)%string]
  | SerialPrintCall text => [text]
  | _ => []
  end.

Definition total_length (texts : list string) : Z :=
  foldr (fun text n => Z.of_nat (String.length text) + n) 0 texts.

(** Lines whose effect [reset_simulation] does not undo. *)
Definition configures (line : Line) : bool :=
  match line with
  | PinModeCall _ _ => true
  | SerialBeginCall _ => true
  | _ => false
  end.

(** The sketch that [load_example_code] puts in the editor, as
    [extract_arduino_functions] and [execute_line] see it. *)
Definition example_setup : list Line :=
  [Comment; PinModeCall 13 "OUTPUT"; Comment; SerialBeginCall 9600;
   SerialPrintlnCall "Arduino LED Blink Started!"].

Definition example_loop : list Line :=
  [Comment; DigitalWriteCall 13 "HIGH"; SerialPrintlnCall "LED ON";
   DelayCall 1000; Comment; DigitalWriteCall 13 "LOW";
   SerialPrintlnCall "LED OFF"; DelayCall 1000].

Definition example_simulator : AVRSimulator :=
  compile_code example_setup example_loop new_simulator.

(** What no line of a routine changes, between a state and a later one. *)
Definition left_alone (s s' : AVRSimulator) : Prop :=
  timers s' = timers s
  /\ speed_var s' = speed_var s
  /\ sim_running s' = sim_running s
  /\ running s' = running s
  /\ clock_frequency s' = clock_frequency s
  /\ setup_code s' = setup_code s
  /\ loop_code s' = loop_code s
  /\ forall k : Z,
      analog_value <$> pins s' !! k = analog_value <$> pins s !! k
      /\ number <$> pins s' !! k = number <$> pins s !! k.

(** Whether [delay(ms)] returns at speed [v] on a host: the conversion and
    the division succeed and the sleep, when one is due, is accepted. *)
Definition delay_returns (sleep : float -> result unit) (v : float) (ms : Z)
  : bool :=
  match Float64.int_truediv ms Float64.thousand with
  | Raise _ => false
  | Ok delay_seconds =>
      match Float64.truediv delay_seconds v with
      | Raise _ => false
      | Ok actual_delay =>
          if Float64.ltb Float64.milli actual_delay
          then match sleep actual_delay with
               | Ok _ => true
               | Raise _ => false
               end
          else true
      end
  end.

(** Lines that do at speed [v] what they do at any speed at which their
    sleep is accepted: all but a delay whose argument converts and which
    does not return at [v]. *)
Definition sleeps_through (sleep : float -> result unit) (v : float) (line : Line)
  : bool :=
  match line with
  | DelayCall ms =>
      match Float64.of_int ms with
      | Ok _ => delay_returns sleep v ms
      | Raise _ => true
      end
  | _ => true
  end.

(** What a pass whose pacing returns leaves. *)
Definition completed_pass (s : AVRSimulator) : AVRSimulator :=
  with_simulation_time
    (Float64.add (simulation_time (execute_loop s)) Float64.milli)
    (execute_loop s).

Fixpoint completed_passes (n : nat) (s : AVRSimulator) : AVRSimulator :=
  match n with
  | O => s
  | S k => completed_passes k (completed_pass s)
  end.

(** How many passes the scheduler makes when the passes take [loop_times]:
    it goes on until a pacing raises, and that pass is its last. *)
Fixpoint passes_made (sleep : float -> result unit) (speed : float)
  (loop_times : list float) : nat :=
  match loop_times with
  | [] => O
  | loop_time :: rest =>
      match pace sleep speed loop_time with
      | Ok _ => S (passes_made sleep speed rest)
      | Raise _ => 1%nat
      end
  end.

(** The calls a user of the simulator object can make, one after another. *)
Inductive call : Type :=
| CallExecute (code : list Line)
| CallSendSerialInput (input_text : string)
| CallSetPinMode (pin : Z) (mode_name : string)
| CallSetPinState (pin : Z) (high : bool)
| CallCompile (setup loop : list Line)
| CallRun (loop_times : list float)
| CallStop
| CallReset.

Definition perform (c : call) (s : AVRSimulator) : AVRSimulator :=
  match c with
  | CallExecute code => parse_and_execute_code code s
  | CallSendSerialInput input_text => send_serial_input input_text s
  | CallSetPinMode pin mode_name => set_pin_mode pin mode_name s
  | CallSetPinState pin high => set_pin_state pin high s
  | CallCompile setup loop => compile_code setup loop s
  | CallRun loop_times => run_code loop_times s
  | CallStop => stop_simulation s
  | CallReset => reset_simulation s
  end.

Definition perform_all (calls : list call) (s : AVRSimulator) : AVRSimulator :=
  foldl (fun s c => perform c s) s calls.

(** What holds of a pin stored under key [k] in every state the calls reach. *)
Definition pin_in_order (k : Z) (p : GPIOPin) : Prop :=
  number p = k
  /\ 0 <= pwm_value p <= 255
  /\ (pwm_enabled p = false -> pwm_value p = 0).

Definition in_order (s : AVRSimulator) : Prop :=
  dom (pins s) = dom init_gpio_pins
  /\ map_Forall pin_in_order (pins s)
  /\ timers s = init_timers
  /\ tx_count (serial s) = total_length (tx_buffer (serial s))
  /\ rx_count (serial s) = 0.

(** * Properties *)

(** ** Float facts used below *)

Lemma positive_is_not_zero (v : float) :
  Float64.ltb Float64.zero v = true -> Float64.eqb v Float64.zero = false.
Proof.
  destruct v as [sg | sg | | sg m e]; cbv; try congruence; destruct sg; congruence.
Qed.

Lemma truediv_positive (a v : float) :
  Float64.ltb Float64.zero v = true ->
  Float64.truediv a v = Ok (Float64.div a v).
Proof.
  intros Hv. unfold Float64.truediv. now rewrite (positive_is_not_zero v Hv).
Qed.

Lemma truediv_thousand (a : float) :
  Float64.truediv a Float64.thousand = Ok (Float64.div a Float64.thousand).
Proof. apply truediv_positive. reflexivity. Qed.

Lemma int_truediv_converted (ms : Z) (x : float) :
  Float64.of_int ms = Ok x ->
  Float64.int_truediv ms Float64.thousand = Ok (Float64.div x Float64.thousand).
Proof.
  intros Hx. unfold Float64.int_truediv. rewrite Hx. apply truediv_thousand.
Qed.

Lemma int_truediv_overflow (ms : Z) (b : float) :
  Float64.of_int ms = Raise OverflowError ->
  Float64.int_truediv ms b = Raise OverflowError.
Proof. intros Hx. unfold Float64.int_truediv. now rewrite Hx. Qed.

(** The literal [0.001] is the correctly rounded quotient of 1 by 1000. *)
Example milli_is_one_over_thousand :
  Float64.div Float64.one Float64.thousand = Float64.milli.
Proof. reflexivity. Qed.

(** The largest integer that still converts, and the first that does not. *)
Example of_int_last_finite :
  Float64.of_int (2 ^ 1024 - 2 ^ 970 - 1)
  = Ok (S754_finite false 9007199254740991 971).
Proof. vm_compute. reflexivity. Qed.

Example of_int_first_overflow :
  Float64.of_int (2 ^ 1024 - 2 ^ 970) = Raise OverflowError.
Proof. vm_compute. reflexivity. Qed.

(** ** The delay *)

Lemma arduino_delay_returns (ms : Z) (s : AVRSimulator) (x : float) :
  Float64.ltb Float64.zero (speed_var s) = true ->
  Float64.of_int ms = Ok x ->
  (Float64.ltb Float64.milli
     (Float64.div (Float64.div x Float64.thousand) (speed_var s)) = true ->
   time_sleep s (Float64.div (Float64.div x Float64.thousand) (speed_var s))
   = Ok tt) ->
  arduino_delay ms s
  = Returned (with_simulation_time
                (Float64.add (simulation_time s) (Float64.div x Float64.thousand))
                s).
Proof.
  intros Hv Hx Hsleep. unfold arduino_delay.
  rewrite (int_truediv_converted ms x Hx).
  rewrite (truediv_positive _ _ Hv).
  destruct (Float64.ltb Float64.milli _); [| reflexivity].
  now rewrite Hsleep.
Qed.

Lemma arduino_delay_refused
  (ms : Z) (s : AVRSimulator) (x : float) (e : exn) :
  Float64.ltb Float64.zero (speed_var s) = true ->
  Float64.of_int ms = Ok x ->
  Float64.ltb Float64.milli
    (Float64.div (Float64.div x Float64.thousand) (speed_var s)) = true ->
  time_sleep s (Float64.div (Float64.div x Float64.thousand) (speed_var s))
  = Raise e ->
  arduino_delay ms s = Raised e s.
Proof.
  intros Hv Hx Hlong Hsleep. unfold arduino_delay.
  rewrite (int_truediv_converted ms x Hx).
  rewrite (truediv_positive _ _ Hv).
  now rewrite Hlong, Hsleep.
Qed.

Lemma arduino_delay_overflow (ms : Z) (s : AVRSimulator) :
  Float64.of_int ms = Raise OverflowError ->
  arduino_delay ms s = Raised OverflowError s.
Proof.
  intros Hx. unfold arduino_delay. now rewrite (int_truediv_overflow ms _ Hx).
Qed.

(** C3, as amended: for a delay [ms] that converts to a double [x], at a
    positive speed at which the host's [time.sleep] accepts the wall-clock
    length [x / 1000.0 / speed] (no sleep is made for a length of at most
    0.001), [delay(ms)] returns, and the simulated time becomes
    [simulation_time + x / 1000.0] with no other field changed; at every
    other such speed the call returns with the same simulated time. *)
Theorem arduino_delay_advances_simulation_time
  (ms : Z) (s : AVRSimulator) (x : float) :
  Float64.ltb Float64.zero (speed_var s) = true ->
  Float64.of_int ms = Ok x ->
  (Float64.ltb Float64.milli
     (Float64.div (Float64.div x Float64.thousand) (speed_var s)) = true ->
   time_sleep s (Float64.div (Float64.div x Float64.thousand) (speed_var s))
   = Ok tt) ->
  arduino_delay ms s
  = Returned (with_simulation_time
                (Float64.add (simulation_time s) (Float64.div x Float64.thousand))
                s)
  /\ forall v : float,
      Float64.ltb Float64.zero v = true ->
      (Float64.ltb Float64.milli
         (Float64.div (Float64.div x Float64.thousand) v) = true ->
       time_sleep s (Float64.div (Float64.div x Float64.thousand) v) = Ok tt) ->
      arduino_delay ms (with_speed_var v s)
      = Returned (with_simulation_time
                    (Float64.add (simulation_time s)
                                 (Float64.div x Float64.thousand))
                    (with_speed_var v s)).
Proof.
  intros Hv Hx Hsleep. split.
  - now apply arduino_delay_returns.
  - intros v Hv' Hsleep'.
    now apply (arduino_delay_returns ms (with_speed_var v s) x).
Qed.

(** [delay(5000)] at the speed "10x", one second into the simulation: the
    sleep of half a second is accepted. *)
Lemma arduino_delay_advances_simulation_time_witness :
  let s := with_simulation_time (Float64.of_Z 1)
             (with_speed_var (Float64.of_Z 10) new_simulator) in
  Float64.ltb Float64.zero (speed_var s) = true
  /\ Float64.of_int 5000 = Ok (Float64.of_Z 5000)
  /\ time_sleep s (Float64.div (Float64.div (Float64.of_Z 5000) Float64.thousand)
                               (speed_var s)) = Ok tt
  /\ simulation_time (final_state (arduino_delay 5000 s)) = Float64.of_Z 6.
Proof.
  intros s.
  assert (Hv : Float64.ltb Float64.zero (speed_var s) = true).
  { vm_compute. reflexivity. }
  assert (Hx : Float64.of_int 5000 = Ok (Float64.of_Z 5000)).
  { vm_compute. reflexivity. }
  assert (Hsleep : time_sleep s
                     (Float64.div (Float64.div (Float64.of_Z 5000)
                                               Float64.thousand) (speed_var s))
                   = Ok tt).
  { vm_compute. reflexivity. }
  split; [exact Hv | split; [exact Hx | split; [exact Hsleep |]]].
  destruct (arduino_delay_advances_simulation_time 5000 s (Float64.of_Z 5000)
              Hv Hx (fun _ => Hsleep)) as [Hret _].
  rewrite Hret. vm_compute. reflexivity.
Defined.

(** C3, as stated, fails in three ways, each at a positive speed.  A delay
    too large for a double raises in [ms / 1000.0]; [delay(10 ** 13)] at "1x"
    converts, but its sleep of 1e10 seconds is refused; in both cases the
    line is abandoned and no time passes.  And the speed does matter:
    [delay(10 ** 12)] advances the time by 1e9 at "1x", where the sleep of
    1e9 seconds is accepted, and by nothing at "0.1x", where the sleep of
    1e10 seconds is refused. *)
Lemma arduino_delay_huge_counterexample :
  let tenth := Float64.div (Float64.of_Z 1) (Float64.of_Z 10) in
  let slow := with_speed_var tenth new_simulator in
  Float64.ltb Float64.zero (speed_var new_simulator) = true
  /\ Float64.ltb Float64.zero (speed_var slow) = true
  /\ simulation_time (parse_and_execute_code [DelayCall (2 ^ 1024)] new_simulator)
     = simulation_time new_simulator
  /\ arduino_delay (10 ^ 13) new_simulator = Raised OverflowError new_simulator
  /\ simulation_time (parse_and_execute_code [DelayCall (10 ^ 13)] new_simulator)
     = simulation_time new_simulator
  /\ simulation_time (parse_and_execute_code [DelayCall (10 ^ 12)] new_simulator)
     = Float64.of_Z (10 ^ 9)
  /\ simulation_time (parse_and_execute_code [DelayCall (10 ^ 12)] slow)
     = simulation_time slow.
Proof.
  intros tenth slow.
  assert (Hpos : Float64.ltb Float64.zero (speed_var new_simulator) = true).
  { vm_compute. reflexivity. }
  assert (Hslow : Float64.ltb Float64.zero (speed_var slow) = true).
  { vm_compute. reflexivity. }
  assert (Hhuge : arduino_delay (2 ^ 1024) new_simulator
                  = Raised OverflowError new_simulator).
  { apply arduino_delay_overflow. vm_compute. reflexivity. }
  assert (H13 : arduino_delay (10 ^ 13) new_simulator
                = Raised OverflowError new_simulator).
  { apply (arduino_delay_refused _ _ (Float64.of_Z (10 ^ 13))); try exact Hpos;
      vm_compute; reflexivity. }
  assert (H12 : arduino_delay (10 ^ 12) slow = Raised OverflowError slow).
  { apply (arduino_delay_refused _ _ (Float64.of_Z (10 ^ 12))); try exact Hslow;
      vm_compute; reflexivity. }
  split_and!; try assumption;
    cbn [parse_and_execute_code execute_line final_state];
    rewrite ?Hhuge, ?H13, ?H12; reflexivity.
Qed.

(** ** Pin writes *)

Section PinWrites.

Variable s : AVRSimulator.
Variable pin : Z.
Variable p : GPIOPin.
Hypothesis Hpin : pins s !! pin = Some p.

Lemma digitalWrite_output (state_name : string) :
  mode p = OUTPUT ->
  pins (arduino_digitalWrite pin state_name s) !! pin
  = Some (set_state (if String.eqb state_name "HIGH" then HIGH else LOW)
                    (simulation_time s) p).
Proof.
  intros Hm. unfold arduino_digitalWrite. rewrite Hpin.
  destruct (decide (mode p = OUTPUT)) as [_ | Hne]; [| contradiction].
  cbn. now rewrite lookup_alter_eq, Hpin.
Qed.

Lemma digitalWrite_not_output (state_name : string) :
  mode p <> OUTPUT -> arduino_digitalWrite pin state_name s = s.
Proof.
  intros Hm. unfold arduino_digitalWrite. rewrite Hpin.
  destruct (decide (mode p = OUTPUT)) as [He | _]; [contradiction | reflexivity].
Qed.

Lemma analogWrite_known (value : Z) :
  pins (arduino_analogWrite pin value s) !! pin
  = Some (set_pwm (Z.max 0 (Z.min 255 value)) p).
Proof.
  unfold arduino_analogWrite. rewrite Hpin. cbn.
  now rewrite lookup_alter_eq, Hpin.
Qed.

End PinWrites.

(** C1, as amended: on a pin whose mode is not OUTPUT a digital write changes
    nothing at all, so the pin keeps its state and PWM value; a PWM write does
    not look at the mode: on a pin in any mode it keeps the pin's state, mode
    and other fields, enables PWM and stores the duty clamped to 0..255, and
    it changes no other pin and nothing else in the simulator. *)
Theorem writes_on_non_output_pin
  (s : AVRSimulator) (pin : Z) (p : GPIOPin) :
  pins s !! pin = Some p ->
  (mode p <> OUTPUT ->
   forall state_name : string, arduino_digitalWrite pin state_name s = s)
  /\ (forall value : Z,
        let s' := arduino_analogWrite pin value s in
        (exists p' : GPIOPin,
            pins s' !! pin = Some p'
            /\ state p' = state p
            /\ mode p' = mode p
            /\ pwm_value p' = Z.max 0 (Z.min 255 value)
            /\ pwm_enabled p' = true
            /\ number p' = number p
            /\ analog_value p' = analog_value p
            /\ last_change p' = last_change p)
        /\ (forall k : Z, k <> pin -> pins s' !! k = pins s !! k)
        /\ s' = with_pins (pins s') s).
Proof.
  intros Hpin. split.
  - intros Hm state_name. now apply (digitalWrite_not_output s pin p).
  - intros value s'. split_and!.
    + eexists. split.
      * exact (analogWrite_known s pin p Hpin value).
      * now cbn.
    + intros k Hk. subst s'. unfold arduino_analogWrite. rewrite Hpin. cbn.
      now rewrite lookup_alter_ne.
    + subst s'. unfold arduino_analogWrite. now rewrite Hpin.
Qed.

(** Scenario B: [digitalWrite(2, HIGH)] on pin 2, an input after reset. *)
Lemma writes_on_non_output_pin_witness :
  let s := reset_simulation new_simulator in
  pins s !! 2 = Some (default_pin 2)
  /\ mode (default_pin 2) <> OUTPUT
  /\ state <$> pins (arduino_digitalWrite 2 "HIGH" s) !! 2 = Some LOW.
Proof.
  intros s.
  assert (Hpin : pins s !! 2 = Some (default_pin 2)).
  { vm_compute. reflexivity. }
  assert (Hmode : mode (default_pin 2) <> OUTPUT).
  { cbn. discriminate. }
  split; [exact Hpin | split; [exact Hmode |]].
  destruct (writes_on_non_output_pin s 2 (default_pin 2) Hpin) as [Hd _].
  rewrite (Hd Hmode), Hpin. reflexivity.
Defined.

(** C1, as stated, fails for PWM writes: pin 2 is an input after reset with
    PWM value 0, and [analogWrite(2, 100)] stores 100 in it. *)
Lemma analogWrite_on_input_pin_counterexample :
  let s := reset_simulation new_simulator in
  mode <$> pins s !! 2 = Some INPUT
  /\ pwm_value <$> pins s !! 2 = Some 0
  /\ pwm_value <$> pins (arduino_analogWrite 2 100 s) !! 2 = Some 100.
Proof. vm_compute. repeat split. Qed.

(** C7: on a known pin, [analogWrite(pin, v)] stores a PWM value within
    0..255: 255 when [v] is above 255, 0 when [v] is below 0, and [v] itself
    otherwise. *)
Theorem analogWrite_clamps_duty
  (s : AVRSimulator) (pin v : Z) (p : GPIOPin) :
  pins s !! pin = Some p ->
  exists p' : GPIOPin,
    pins (arduino_analogWrite pin v s) !! pin = Some p'
    /\ 0 <= pwm_value p' <= 255
    /\ (255 < v -> pwm_value p' = 255)
    /\ (v < 0 -> pwm_value p' = 0)
    /\ (0 <= v <= 255 -> pwm_value p' = v).
Proof.
  intros Hpin. eexists. split.
  - exact (analogWrite_known s pin p Hpin v).
  - cbn. lia.
Qed.

(** [analogWrite(9, 300)] stores 255. *)
Lemma analogWrite_clamps_duty_witness :
  pins new_simulator !! 9 = Some (default_pin 9)
  /\ pwm_value <$> pins (arduino_analogWrite 9 300 new_simulator) !! 9 = Some 255.
Proof.
  assert (Hpin : pins new_simulator !! 9 = Some (default_pin 9)).
  { vm_compute. reflexivity. }
  split; [exact Hpin |].
  destruct (analogWrite_clamps_duty new_simulator 9 300 (default_pin 9) Hpin)
    as (p' & Hp' & _ & Hhigh & _).
  rewrite Hp'. cbn. f_equal. apply Hhigh. lia.
Defined.

Example analogWrite_300 :
  pwm_value <$> pins (arduino_analogWrite 9 300 new_simulator) !! 9 = Some 255.
Proof. vm_compute. reflexivity. Qed.

Example analogWrite_minus_10 :
  pwm_value <$> pins (arduino_analogWrite 9 (-10) new_simulator) !! 9 = Some 0.
Proof. vm_compute. reflexivity. Qed.

(** ** The serial channel *)

Lemma serial_output_log (text : string) (s : AVRSimulator) :
  tx_buffer (serial (serial_output text s)) = tx_buffer (serial s) ++ [text].
Proof. reflexivity. Qed.

Lemma serial_output_count (text : string) (s : AVRSimulator) :
  tx_count (serial (serial_output text s))
  = tx_count (serial s) + Z.of_nat (String.length text).
Proof. reflexivity. Qed.

(** C4, as amended: in every state, whether or not [Serial.begin] has been
    executed, emitting [text] appends it to the transmit log and adds its
    length to the transmit count; [Serial.print] emits [text] itself and
    nothing in the simulator records that the channel was opened. *)
Theorem serial_output_always_appends (text : string) (s : AVRSimulator) :
  execute_line (SerialPrintCall text) s = Returned (serial_output text s)
  /\ tx_buffer (serial (serial_output text s)) = tx_buffer (serial s) ++ [text]
  /\ tx_count (serial (serial_output text s))
     = tx_count (serial s) + Z.of_nat (String.length text).
Proof. repeat split. Qed.

(** C4, as stated, fails: right after reset, with no [Serial.begin] executed,
    [Serial.print("hi")] is logged and counted. *)
Lemma emit_before_open_counterexample :
  let s := reset_simulation new_simulator in
  let s' := parse_and_execute_code [SerialPrintCall "hi"] s in
  tx_buffer (serial s) = []
  /\ tx_count (serial s) = 0
  /\ tx_buffer (serial s') = ["hi"%string]
  /\ tx_count (serial s') = 2.
Proof. vm_compute. repeat split. Qed.

(** C5, as amended: from the reset state, [Serial.begin(9600)] followed by
    two [Serial.print("hi")] leaves three entries in the transmit log, the
    announcement that [Serial.begin] itself emits and the two texts, and a
    transmit count of 42 + 2 + 2 = 46. *)
Theorem open_and_emit_twice_log :
  let s := parse_and_execute_code open_and_emit_twice
             (reset_simulation new_simulator) in
  tx_buffer (serial s) = [begin_announcement_9600; "hi"%string; "hi"%string]
  /\ String.length begin_announcement_9600 = 42%nat
  /\ tx_count (serial s) = 46
  /\ baud_rate (serial s) = 9600.
Proof. vm_compute. repeat split. Qed.

(** C5, as stated, fails: the log is not the two-element sequence and the
    count is not 4. *)
Lemma open_and_emit_twice_counterexample :
  let s := parse_and_execute_code open_and_emit_twice
             (reset_simulation new_simulator) in
  tx_buffer (serial s) <> ["hi"%string; "hi"%string]
  /\ tx_count (serial s) <> 4.
Proof. vm_compute. split; discriminate. Qed.

(** ** Reset *)

Lemma reset_simulation_pins (s : AVRSimulator) (k : Z) :
  pins (reset_simulation s) !! k = reset_pin <$> pins s !! k.
Proof. unfold reset_simulation. cbn. apply lookup_fmap. Qed.

Lemma reset_simulation_timers (s : AVRSimulator) (k : Z) :
  timers (reset_simulation s) !! k = reset_timer <$> timers s !! k.
Proof. unfold reset_simulation. cbn. apply lookup_fmap. Qed.

(** C6, as amended: whatever the state before, after [reset_simulation] every
    pin is LOW with PWM disabled, PWM value 0 and last change 0.0, and its
    analog value is 512 when its number is at least 14 (the analog pins) and 0
    otherwise; no pin is added or removed; every timer's counter and overflow
    count are 0; the transmit and receive buffers are empty with both counts
    0; and the simulated time is 0.0. *)
Theorem reset_simulation_restores_defaults (s : AVRSimulator) :
  let s' := reset_simulation s in
  map_Forall (fun _ p' =>
                state p' = LOW
                /\ analog_value p' = (if 14 <=? number p' then 512 else 0)
                /\ pwm_enabled p' = false
                /\ pwm_value p' = 0
                /\ last_change p' = Float64.zero) (pins s')
  /\ dom (pins s') = dom (pins s)
  /\ map_Forall (fun _ t' => counter_value t' = 0 /\ overflow_count t' = 0)
                (timers s')
  /\ tx_buffer (serial s') = []
  /\ rx_buffer (serial s') = []
  /\ tx_count (serial s') = 0
  /\ rx_count (serial s') = 0
  /\ simulation_time s' = Float64.zero.
Proof.
  cbn zeta. split; [| split; [| split]].
  - intros k p' Hk. rewrite reset_simulation_pins in Hk.
    destruct (pins s !! k) as [p |]; [| discriminate].
    injection Hk as <-. now cbn.
  - unfold reset_simulation. cbn. apply dom_fmap_L.
  - intros k t' Hk. rewrite reset_simulation_timers in Hk.
    destruct (timers s !! k) as [t |]; [| discriminate].
    injection Hk as <-. now cbn.
  - now cbn.
Qed.

(** C6, as stated, fails on the digital pins: after reset pin 0 has analog
    value 0, not 512, while the analog pin 14 has 512. *)
Lemma reset_digital_pin_analog_counterexample :
  let s' := reset_simulation new_simulator in
  analog_value <$> pins s' !! 0 = Some 0
  /\ analog_value <$> pins s' !! 14 = Some 512.
Proof. vm_compute. split; reflexivity. Qed.

(** C10: [reset_simulation] leaves the mode (and the number) of every pin as
    it was, and creates no pin; in particular an OUTPUT pin stays OUTPUT. *)
Theorem reset_simulation_keeps_modes (s : AVRSimulator) (k : Z) :
  mode <$> pins (reset_simulation s) !! k = mode <$> pins s !! k
  /\ number <$> pins (reset_simulation s) !! k = number <$> pins s !! k.
Proof.
  rewrite reset_simulation_pins.
  destruct (pins s !! k) as [p |]; split; reflexivity.
Qed.

Example reset_keeps_configured_output :
  mode <$> pins (reset_simulation
                   (arduino_pinMode 5 "OUTPUT" new_simulator)) !! 5
  = Some OUTPUT.
Proof. vm_compute. reflexivity. Qed.

(** ** The interpreter on unknown pins *)

Create HintDb registry discriminated.

Lemma dom_pinMode (pin : Z) (mode_name : string) (s : AVRSimulator) :
  dom (pins (arduino_pinMode pin mode_name s)) = dom (pins s).
Proof.
  unfold arduino_pinMode.
  destruct (pins s !! pin); [| reflexivity].
  destruct (mode_of_name mode_name); [| reflexivity].
  cbn. apply dom_alter_L.
Qed.

Lemma dom_digitalWrite (pin : Z) (state_name : string) (s : AVRSimulator) :
  dom (pins (arduino_digitalWrite pin state_name s)) = dom (pins s).
Proof.
  unfold arduino_digitalWrite.
  destruct (pins s !! pin) as [p |]; [| reflexivity].
  destruct (decide (mode p = OUTPUT)); [| reflexivity].
  cbn. apply dom_alter_L.
Qed.

Lemma dom_analogWrite (pin value : Z) (s : AVRSimulator) :
  dom (pins (arduino_analogWrite pin value s)) = dom (pins s).
Proof.
  unfold arduino_analogWrite.
  destruct (pins s !! pin); [| reflexivity].
  cbn. apply dom_alter_L.
Qed.

Lemma pins_delay (ms : Z) (s : AVRSimulator) :
  pins (final_state (arduino_delay ms s)) = pins s.
Proof.
  unfold arduino_delay.
  destruct (Float64.int_truediv ms Float64.thousand) as [x | e]; [| reflexivity].
  destruct (Float64.truediv x (speed_var s)) as [y | e]; [| reflexivity].
  destruct (Float64.ltb Float64.milli y); [| reflexivity].
  now destruct (time_sleep s y).
Qed.

#[local] Hint Resolve dom_pinMode dom_digitalWrite dom_analogWrite : registry.

(** Pins are never created or destroyed by a line. *)
Lemma dom_execute_line (line : Line) (s : AVRSimulator) :
  dom (pins (final_state (execute_line line s))) = dom (pins s).
Proof.
  destruct line; cbn [execute_line final_state]; auto with registry.
  now rewrite pins_delay.
Qed.

Lemma dom_parse_and_execute_code (code : list Line) (s : AVRSimulator) :
  dom (pins (parse_and_execute_code code s)) = dom (pins s).
Proof.
  revert s. induction code as [| line rest IH]; intros s; [reflexivity |].
  cbn [parse_and_execute_code]. rewrite IH. apply dom_execute_line.
Qed.

(** Running two pieces of code one after the other, whatever the lines do. *)
Lemma parse_and_execute_code_app (pre post : list Line) (s : AVRSimulator) :
  parse_and_execute_code (pre ++ post) s
  = parse_and_execute_code post (parse_and_execute_code pre s).
Proof.
  revert s. induction pre as [| line rest IH]; intros s; [reflexivity |].
  cbn [app parse_and_execute_code]. apply IH.
Qed.

Lemma execute_line_unknown_pin (line : Line) (pin : Z) (s : AVRSimulator) :
  referenced_pin line = Some pin ->
  pins s !! pin = None ->
  execute_line line s = Returned s.
Proof.
  intros Href Hnone.
  destruct line; cbn in Href; try discriminate; injection Href as ->; cbn;
    unfold arduino_pinMode, arduino_digitalWrite, arduino_analogWrite;
    now rewrite Hnone.
Qed.

(** C8: a line that names a pin absent from the registry returns without
    changing anything, wherever it stands in the code: running the code gives
    the state that the lines before it followed by the lines after it give,
    all of which are executed.  No line stops the run: after any line, also
    one that raises, the lines after it are executed from the state it left. *)
Theorem unknown_pin_line_is_skipped
  (pre post : list Line) (line : Line) (pin : Z) (s : AVRSimulator) :
  referenced_pin line = Some pin ->
  pins s !! pin = None ->
  execute_line line (parse_and_execute_code pre s)
  = Returned (parse_and_execute_code pre s)
  /\ parse_and_execute_code (pre ++ line :: post) s
     = parse_and_execute_code post (parse_and_execute_code pre s)
  /\ parse_and_execute_code (pre ++ line :: post) s
     = parse_and_execute_code (pre ++ post) s
  /\ forall other : Line,
       parse_and_execute_code (pre ++ other :: post) s
       = parse_and_execute_code post
           (final_state (execute_line other (parse_and_execute_code pre s))).
Proof.
  intros Href Hnone.
  assert (Hskip : execute_line line (parse_and_execute_code pre s)
                  = Returned (parse_and_execute_code pre s)).
  { apply (execute_line_unknown_pin line pin); [exact Href |].
    apply not_elem_of_dom. rewrite dom_parse_and_execute_code.
    now apply not_elem_of_dom. }
  split; [exact Hskip |].
  assert (Hstep : forall other : Line,
             parse_and_execute_code (pre ++ other :: post) s
             = parse_and_execute_code post
                 (final_state (execute_line other (parse_and_execute_code pre s)))).
  { intros other. now rewrite parse_and_execute_code_app. }
  split; [| split; [| exact Hstep]].
  - now rewrite Hstep, Hskip.
  - now rewrite Hstep, Hskip, parse_and_execute_code_app.
Qed.

(** [digitalWrite(42, HIGH)] between two lines for pin 13. *)
Lemma unknown_pin_line_is_skipped_witness :
  referenced_pin (DigitalWriteCall 42 "HIGH") = Some 42
  /\ pins new_simulator !! 42 = None
  /\ parse_and_execute_code
       ([DigitalWriteCall 13 "HIGH"] ++ DigitalWriteCall 42 "HIGH"
          :: [AnalogWriteCall 13 7]) new_simulator
     = parse_and_execute_code
         ([DigitalWriteCall 13 "HIGH"] ++ [AnalogWriteCall 13 7]) new_simulator.
Proof.
  assert (Hnone : pins new_simulator !! 42 = None).
  { vm_compute. reflexivity. }
  split; [reflexivity | split; [exact Hnone |]].
  apply (unknown_pin_line_is_skipped
           [DigitalWriteCall 13 "HIGH"] [AnalogWriteCall 13 7]
           (DigitalWriteCall 42 "HIGH") 42 new_simulator eq_refl Hnone).
Defined.

(** A line that raises is abandoned and the next one still runs. *)
Example raising_line_does_not_stop_the_run :
  pwm_value <$>
    pins (parse_and_execute_code
            [DelayCall (2 ^ 1024); AnalogWriteCall 13 7] new_simulator) !! 13
  = Some 7.
Proof. vm_compute. reflexivity. Qed.

(** ** Scenario A: the blinking LED *)

(** [four_and_two_milli] is within half a unit in the last place of 4.002. *)
Example four_and_two_milli_is_nearest :
  4002 * 2 ^ 50 - 500 <= 1000 * 4505851427184181 <= 4002 * 2 ^ 50 + 500.
Proof. vm_compute. split; discriminate. Qed.

(** What the scheduler reads of the state between passes is not changed by
    any line. *)
Lemma scheduler_inputs_execute_line (line : Line) (s : AVRSimulator) :
  let s' := final_state (execute_line line s) in
  speed_var s' = speed_var s
  /\ time_sleep s' = time_sleep s
  /\ sim_running s' = sim_running s
  /\ loop_code s' = loop_code s.
Proof.
  destruct line; cbn [execute_line final_state]; try now cbn.
  - unfold arduino_pinMode. destruct (pins s !! pin); [| now cbn].
    now destruct (mode_of_name mode_name).
  - unfold arduino_digitalWrite. destruct (pins s !! pin) as [p |]; [| now cbn].
    now destruct (decide (mode p = OUTPUT)).
  - unfold arduino_analogWrite. now destruct (pins s !! pin).
  - unfold arduino_delay.
    destruct (Float64.int_truediv ms Float64.thousand) as [x | e]; [| now cbn].
    destruct (Float64.truediv x (speed_var s)) as [y | e]; [| now cbn].
    destruct (Float64.ltb Float64.milli y); [| now cbn].
    now destruct (time_sleep s y).
Qed.

Lemma scheduler_inputs_parse (code : list Line) (s : AVRSimulator) :
  let s' := parse_and_execute_code code s in
  speed_var s' = speed_var s
  /\ time_sleep s' = time_sleep s
  /\ sim_running s' = sim_running s
  /\ loop_code s' = loop_code s.
Proof.
  revert s. induction code as [| line rest IH]; intros s; [now cbn |].
  cbn [parse_and_execute_code]. cbn zeta.
  destruct (IH (final_state (execute_line line s))) as (Hv & Hh & Hr & Hl).
  destruct (scheduler_inputs_execute_line line s) as (Hv1 & Hh1 & Hr1 & Hl1).
  cbn zeta in *. split_and!; congruence.
Qed.

Lemma scheduler_inputs_completed_pass (s : AVRSimulator) :
  speed_var (completed_pass s) = speed_var s
  /\ time_sleep (completed_pass s) = time_sleep s
  /\ sim_running (completed_pass s) = sim_running s
  /\ loop_code (completed_pass s) = loop_code s.
Proof.
  unfold completed_pass, execute_loop. cbn.
  apply (scheduler_inputs_parse (loop_code s) s).
Qed.

Lemma pace_not_due
  (sleep : float -> result unit) (speed loop_time target_time : float) :
  Float64.truediv Float64.milli speed = Ok target_time ->
  Float64.ltb loop_time target_time = false ->
  pace sleep speed loop_time = Ok tt.
Proof. intros Ht Hl. unfold pace. now rewrite Ht, Hl. Qed.

Lemma loop_iteration_outcome (loop_time : float) (s : AVRSimulator) :
  loop_iteration loop_time s
  = match pace (time_sleep s) (speed_var s) loop_time with
    | Ok _ => Returned (completed_pass s)
    | Raise e => Raised e (completed_pass s)
    end.
Proof.
  unfold loop_iteration. fold (completed_pass s).
  destruct (scheduler_inputs_completed_pass s) as (-> & -> & _).
  reflexivity.
Qed.

Lemma loop_iterations_complete (loop_times : list float) (s : AVRSimulator) :
  sim_running s = true ->
  Forall (fun loop_time =>
            pace (time_sleep s) (speed_var s) loop_time = Ok tt) loop_times ->
  loop_iterations loop_times s
  = Returned (completed_passes (length loop_times) s).
Proof.
  revert s. induction loop_times as [| t rest IH]; intros s Hrun Hpace.
  - reflexivity.
  - apply Forall_cons in Hpace as [Ht Hrest].
    cbn [loop_iterations length completed_passes]. rewrite Hrun.
    rewrite loop_iteration_outcome, Ht.
    destruct (scheduler_inputs_completed_pass s) as (Hv & Hh & Hr & _).
    apply IH; [congruence |]. now rewrite Hv, Hh.
Qed.

(** C2, as amended: from the reset state, the setup routine and two passes of
    [simulation_loop] over the loop routine, neither pass measured shorter
    than the millisecond the scheduler paces a pass to (the two waits of a
    pass sleep two seconds), leave pin 13 LOW and the simulated time at the
    double 4.002: the four delays add exactly 4.0, which is what the two
    routines give when the interpreter alone runs them, and the scheduler adds
    0.001 after each of its two passes. *)
Theorem blink_two_iterations (t1 t2 : float) :
  Float64.ltb t1 Float64.milli = false ->
  Float64.ltb t2 Float64.milli = false ->
  let s := run_code [t1; t2] blink_simulator in
  let interpreted :=
    parse_and_execute_code (blink_loop ++ blink_loop)
      (parse_and_execute_code blink_setup (reset_simulation blink_simulator)) in
  simulation_time s = four_and_two_milli
  /\ state <$> pins s !! 13 = Some LOW
  /\ simulation_time interpreted = Float64.four
  /\ state <$> pins interpreted !! 13 = Some LOW.
Proof.
  intros H1 H2 s interpreted.
  set (started :=
         execute_setup (with_sim_running true (reset_simulation blink_simulator))).
  assert (Hs : s = with_sim_running false (completed_passes 2 started)).
  { subst s. unfold run_code.
    change (sim_running blink_simulator) with false. cbn iota.
    unfold simulation_loop. fold started.
    rewrite (loop_iterations_complete [t1; t2] started); [reflexivity | |].
    - vm_compute. reflexivity.
    - assert (Ht : Float64.truediv Float64.milli (speed_var started)
                   = Ok Float64.milli) by (vm_compute; reflexivity).
      repeat (apply Forall_cons; split;
              [now apply (pace_not_due _ _ _ Float64.milli) |]).
      apply Forall_nil. constructor. }
  rewrite Hs. subst interpreted started. clear.
  vm_compute. repeat split.
Qed.

(** Two passes of two seconds each. *)
Lemma blink_two_iterations_witness :
  Float64.ltb Float64.two Float64.milli = false
  /\ simulation_time (run_code [Float64.two; Float64.two] blink_simulator)
     = four_and_two_milli.
Proof.
  assert (H : Float64.ltb Float64.two Float64.milli = false) by reflexivity.
  split; [exact H |].
  apply (blink_two_iterations Float64.two Float64.two H H).
Defined.

(** C2, as stated, fails: after two passes of the scheduler (of two seconds
    each) the simulated time is not 4.0, and neither is it between the second
    run of the loop routine and the scheduler's own increment. *)
Lemma blink_two_iterations_counterexample :
  let s := run_code [Float64.two; Float64.two] blink_simulator in
  let started :=
    execute_setup (with_sim_running true (reset_simulation blink_simulator)) in
  let before_increment :=
    execute_loop (final_state (loop_iterations [Float64.two] started)) in
  simulation_time s <> Float64.four
  /\ Float64.eqb (simulation_time s) Float64.four = false
  /\ Float64.eqb (simulation_time before_increment) Float64.four = false.
Proof. vm_compute. repeat split. discriminate. Qed.

(** The speed setting does not change the outcome of the scenario: at each
    entry of the selector, with passes that take the [2 / speed] seconds
    their waits sleep. *)
Example blink_at_every_speed :
  Forall (fun v =>
            simulation_time
              (run_code [Float64.div Float64.two v; Float64.div Float64.two v]
                        (with_speed_var v blink_simulator))
            = four_and_two_milli)
         speed_choices.
Proof.
  unfold speed_choices.
  repeat (apply Forall_cons; split; [vm_compute; reflexivity |]).
  apply Forall_nil. constructor.
Qed.

(** * Further properties of the simulator *)

(** ** Digital writes and mode changes *)

Lemma lookup_alter_field {A B : Type} (g : A -> B) (f : A -> A)
  (i k : Z) (m : gmap Z A) :
  (forall a : A, g (f a) = g a) ->
  g <$> alter f i m !! k = g <$> m !! k.
Proof.
  intros Hg. destruct (decide (i = k)) as [-> | Hne].
  - rewrite lookup_alter_eq. destruct (m !! k) as [a |]; cbn; [| reflexivity].
    now rewrite Hg.
  - now rewrite lookup_alter_ne.
Qed.

Lemma high_only_when_named (state_name : string) :
  (if String.eqb state_name "HIGH" then HIGH else LOW) = HIGH
  <-> state_name = "HIGH"%string.
Proof.
  destruct (String.eqb_spec state_name "HIGH") as [-> | Hne]; split;
    try reflexivity; try discriminate; intros; contradiction.
Qed.

(** X1: On a pin in OUTPUT mode, [digitalWrite] makes the pin HIGH exactly when
    the level is spelled "HIGH" (any other word, such as "1" or "high",
    writes LOW), stamps the pin with the current simulated time, keeps its
    mode, number, analog and PWM fields, and touches no other pin and no other
    part of the simulator. *)
Theorem digitalWrite_on_output_pin
  (s : AVRSimulator) (pin : Z) (p : GPIOPin) (state_name : string) :
  pins s !! pin = Some p ->
  mode p = OUTPUT ->
  let s' := arduino_digitalWrite pin state_name s in
  (exists p' : GPIOPin,
      pins s' !! pin = Some p'
      /\ (state p' = HIGH <-> state_name = "HIGH"%string)
      /\ (state p' = LOW <-> state_name <> "HIGH"%string)
      /\ last_change p' = simulation_time s
      /\ mode p' = OUTPUT
      /\ number p' = number p
      /\ analog_value p' = analog_value p
      /\ pwm_value p' = pwm_value p
      /\ pwm_enabled p' = pwm_enabled p)
  /\ (forall k : Z, k <> pin -> pins s' !! k = pins s !! k)
  /\ s' = with_pins (pins s') s.
Proof.
  intros Hpin Hmode s'. split; [| split].
  - exists (set_state (if String.eqb state_name "HIGH" then HIGH else LOW)
                      (simulation_time s) p).
    split; [exact (digitalWrite_output s pin p Hpin state_name Hmode) |].
    cbn. pose proof (high_only_when_named state_name) as Hh.
    repeat split; try tauto; try assumption.
    + intros Hlow Hname. apply Hh in Hname. congruence.
    + intros Hname. destruct (String.eqb state_name "HIGH") eqn:E;
        [| reflexivity].
      apply String.eqb_eq in E. contradiction.
  - intros k Hk. subst s'. unfold arduino_digitalWrite. rewrite Hpin.
    destruct (decide (mode p = OUTPUT)); [| reflexivity].
    cbn. now rewrite lookup_alter_ne.
  - subst s'. unfold arduino_digitalWrite. rewrite Hpin.
    destruct (decide (mode p = OUTPUT)); [reflexivity | contradiction].
Qed.

(** [digitalWrite(13, 1)] on the LED pin writes LOW. *)
Lemma digitalWrite_on_output_pin_witness :
  pins new_simulator !! 13 = Some (set_mode OUTPUT (default_pin 13))
  /\ mode (set_mode OUTPUT (default_pin 13)) = OUTPUT
  /\ state <$> pins (arduino_digitalWrite 13 "1" new_simulator) !! 13 = Some LOW.
Proof.
  assert (Hpin : pins new_simulator !! 13
                 = Some (set_mode OUTPUT (default_pin 13))).
  { vm_compute. reflexivity. }
  split; [exact Hpin | split; [reflexivity |]].
  destruct (digitalWrite_on_output_pin new_simulator 13 _ "1" Hpin eq_refl)
    as [(p' & Hp' & _ & Hlow & _) _].
  rewrite Hp'. cbn. f_equal. apply Hlow. discriminate.
Defined.

(** X2: Two digital writes to the same pin with no delay between them leave what
    the second alone leaves: the last write wins, and repeating a write
    changes nothing. *)
Theorem digitalWrite_last_write_wins
  (s : AVRSimulator) (pin : Z) (first second : string) :
  arduino_digitalWrite pin second (arduino_digitalWrite pin first s)
  = arduino_digitalWrite pin second s.
Proof.
  unfold arduino_digitalWrite at 2 3.
  destruct (pins s !! pin) as [p |] eqn:Hpin.
  - destruct (decide (mode p = OUTPUT)) as [Hmode | Hmode].
    + unfold arduino_digitalWrite. cbn.
      rewrite lookup_alter_eq, Hpin. cbn.
      destruct (decide (mode p = OUTPUT)); [| contradiction].
      unfold with_pins. cbn. f_equal.
      rewrite alter_alter_eq. apply alter_ext. reflexivity.
    + unfold arduino_digitalWrite. rewrite Hpin.
      destruct (decide (mode p = OUTPUT)); [contradiction | reflexivity].
  - unfold arduino_digitalWrite. now rewrite Hpin.
Qed.

Lemma pinMode_known
  (s : AVRSimulator) (pin : Z) (p : GPIOPin) (mode_name : string) (m : PinMode) :
  pins s !! pin = Some p ->
  mode_of_name mode_name = Some m ->
  pins (arduino_pinMode pin mode_name s) !! pin = Some (set_mode m p).
Proof.
  intros Hpin Hname. unfold arduino_pinMode. rewrite Hpin, Hname. cbn.
  now rewrite lookup_alter_eq, Hpin.
Qed.

(** X3: A mode change keeps the level: once a pin has been made an output and
    written, switching it to an input mode leaves the written level in place,
    and a later [digitalWrite] no longer changes it. *)
Theorem level_survives_mode_change
  (s : AVRSimulator) (pin : Z) (p : GPIOPin)
  (level other away : string) (m : PinMode) :
  pins s !! pin = Some p ->
  mode_of_name away = Some m ->
  m <> OUTPUT ->
  let s' :=
    parse_and_execute_code
      [PinModeCall pin "OUTPUT"; DigitalWriteCall pin level;
       PinModeCall pin away; DigitalWriteCall pin other] s in
  exists p' : GPIOPin,
    pins s' !! pin = Some p'
    /\ mode p' = m
    /\ (state p' = HIGH <-> level = "HIGH"%string)
    /\ pwm_value p' = pwm_value p
    /\ analog_value p' = analog_value p.
Proof.
  intros Hpin Haway Hm s'. subst s'.
  cbn [parse_and_execute_code execute_line final_state].
  set (s1 := arduino_pinMode pin "OUTPUT" s).
  assert (H1 : pins s1 !! pin = Some (set_mode OUTPUT p)).
  { now apply pinMode_known. }
  set (s2 := arduino_digitalWrite pin level s1).
  pose proof (digitalWrite_output s1 pin _ H1 level eq_refl) as H2.
  fold s2 in H2.
  set (s3 := arduino_pinMode pin away s2).
  pose proof (pinMode_known s2 pin _ away m H2 Haway) as H3.
  fold s3 in H3.
  rewrite (digitalWrite_not_output s3 pin _ H3 other); [| exact Hm].
  eexists. split; [exact H3 |]. cbn.
  repeat split; try reflexivity; apply high_only_when_named.
Qed.

(** Pin 7: made an output, written HIGH, made an input, written LOW. *)
Lemma level_survives_mode_change_witness :
  pins new_simulator !! 7 = Some (default_pin 7)
  /\ mode_of_name "INPUT" = Some INPUT
  /\ INPUT <> OUTPUT
  /\ state <$>
       pins (parse_and_execute_code
               [PinModeCall 7 "OUTPUT"; DigitalWriteCall 7 "HIGH";
                PinModeCall 7 "INPUT"; DigitalWriteCall 7 "LOW"]
               new_simulator) !! 7
     = Some HIGH.
Proof.
  assert (Hpin : pins new_simulator !! 7 = Some (default_pin 7)).
  { vm_compute. reflexivity. }
  assert (Hne : INPUT <> OUTPUT) by discriminate.
  split; [exact Hpin | split; [reflexivity | split; [exact Hne |]]].
  destruct (level_survives_mode_change new_simulator 7 _ "HIGH" "LOW" "INPUT"
              INPUT Hpin eq_refl Hne) as (p' & Hp' & _ & Hhigh & _).
  rewrite Hp'. cbn. f_equal. now apply Hhigh.
Defined.

(** X4: The panel's [set_pin_state] gives every pin the level that
    [digitalWrite] with the matching word gives, under the same condition
    (the pin exists and is an output), but unlike [digitalWrite] it never
    updates the time of the last change; modes are the same too. *)
Theorem set_pin_state_like_digitalWrite
  (s : AVRSimulator) (pin : Z) (high : bool) (k : Z) :
  let written :=
    arduino_digitalWrite pin (if high then "HIGH" else "LOW") s in
  state <$> pins (set_pin_state pin high s) !! k = state <$> pins written !! k
  /\ mode <$> pins (set_pin_state pin high s) !! k = mode <$> pins written !! k
  /\ last_change <$> pins (set_pin_state pin high s) !! k
     = last_change <$> pins s !! k.
Proof.
  unfold set_pin_state, arduino_digitalWrite.
  destruct (pins s !! pin) as [p |] eqn:Hpin; [| now cbn].
  destruct (decide (mode p = OUTPUT)); [| now cbn].
  cbn. split; [| split].
  - destruct (decide (pin = k)) as [-> | Hne].
    + rewrite !lookup_alter_eq, Hpin. now destruct high.
    + now rewrite !lookup_alter_ne.
  - now rewrite !(lookup_alter_field mode).
  - now rewrite (lookup_alter_field last_change).
Qed.

(** ** What a delay can change *)

Lemma with_simulation_time_same (s : AVRSimulator) :
  with_simulation_time (simulation_time s) s = s.
Proof. now destruct s. Qed.

Lemma delay_changes_time_only (ms : Z) (s : AVRSimulator) :
  exists t : float, final_state (arduino_delay ms s) = with_simulation_time t s.
Proof.
  unfold arduino_delay.
  destruct (Float64.int_truediv ms Float64.thousand) as [x | e].
  - destruct (Float64.truediv x (speed_var s)) as [y | e].
    + destruct (Float64.ltb Float64.milli y); [| now eexists].
      destruct (time_sleep s y) as [u | e]; [now eexists |].
      exists (simulation_time s). cbn. now rewrite with_simulation_time_same.
    + exists (simulation_time s). cbn. now rewrite with_simulation_time_same.
  - exists (simulation_time s). cbn. now rewrite with_simulation_time_same.
Qed.

Lemma delay_raising_changes_nothing
  (ms : Z) (s s' : AVRSimulator) (e : exn) :
  arduino_delay ms s = Raised e s' -> s' = s.
Proof.
  unfold arduino_delay.
  destruct (Float64.int_truediv ms Float64.thousand) as [x | e1].
  - destruct (Float64.truediv x (speed_var s)) as [y | e2].
    + destruct (Float64.ltb Float64.milli y); [| discriminate].
      destruct (time_sleep s y) as [u | e3]; [discriminate |].
      now intros [= _ <-].
    + now intros [= _ <-].
  - now intros [= _ <-].
Qed.

(** X6: [delay] is safe: whatever its argument, the speed and the host's
    [time.sleep], it changes no field but the simulated time; when it raises,
    it has changed nothing at all; and at speed zero it always raises, so no
    delay ever advances the time. *)
Theorem arduino_delay_is_safe (ms : Z) (s : AVRSimulator) :
  (exists t : float,
      final_state (arduino_delay ms s) = with_simulation_time t s)
  /\ (forall (e : exn) (s' : AVRSimulator),
        arduino_delay ms s = Raised e s' -> s' = s)
  /\ (Float64.eqb (speed_var s) Float64.zero = true ->
      exists e : exn, arduino_delay ms s = Raised e s).
Proof.
  split; [apply delay_changes_time_only | split].
  - intros e s'. apply delay_raising_changes_nothing.
  - intros Hzero. unfold arduino_delay.
    destruct (Float64.int_truediv ms Float64.thousand) as [x | e].
    + unfold Float64.truediv. rewrite Hzero. now eexists.
    + now eexists.
Qed.

(** ** The transmit log *)

Lemma string_length_append (a b : string) :
  String.length (a ++ b) = (String.length a + String.length b)%nat.
Proof.
  induction a as [| c a IH]; [reflexivity |].
  change (S (String.length (a ++ b)) = S (String.length a + String.length b)).
  now rewrite IH.
Qed.

Lemma total_length_app (a b : list string) :
  total_length (a ++ b) = total_length a + total_length b.
Proof.
  induction a as [| text a IH]; [reflexivity |].
  change (Z.of_nat (String.length text) + total_length (a ++ b)
          = Z.of_nat (String.length text) + total_length a + total_length b).
  rewrite IH. lia.
Qed.

Lemma serial_pinMode (pin : Z) (mode_name : string) (s : AVRSimulator) :
  serial (arduino_pinMode pin mode_name s) = serial s.
Proof.
  unfold arduino_pinMode. destruct (pins s !! pin); [| reflexivity].
  now destruct (mode_of_name mode_name).
Qed.

Lemma serial_digitalWrite (pin : Z) (state_name : string) (s : AVRSimulator) :
  serial (arduino_digitalWrite pin state_name s) = serial s.
Proof.
  unfold arduino_digitalWrite. destruct (pins s !! pin) as [p |]; [| reflexivity].
  now destruct (decide (mode p = OUTPUT)).
Qed.

Lemma serial_analogWrite (pin value : Z) (s : AVRSimulator) :
  serial (arduino_analogWrite pin value s) = serial s.
Proof.
  unfold arduino_analogWrite. now destruct (pins s !! pin).
Qed.

Lemma serial_delay (ms : Z) (s : AVRSimulator) :
  serial (final_state (arduino_delay ms s)) = serial s.
Proof. destruct (delay_changes_time_only ms s) as [t ->]. reflexivity. Qed.

Lemma execute_line_log (line : Line) (s : AVRSimulator) :
  let d' := serial (final_state (execute_line line s)) in
  tx_buffer d' = tx_buffer (serial s) ++ emitted line
  /\ tx_count d' = tx_count (serial s) + total_length (emitted line)
  /\ rx_buffer d' = rx_buffer (serial s)
  /\ rx_count d' = rx_count (serial s).
Proof.
  destruct line; cbn [execute_line final_state emitted];
    rewrite ?serial_pinMode, ?serial_digitalWrite, ?serial_analogWrite,
            ?serial_delay;
    cbn; rewrite ?app_nil_r; repeat split; lia.
Qed.

Lemma parse_and_execute_code_log (code : list Line) (s : AVRSimulator) :
  let d' := serial (parse_and_execute_code code s) in
  tx_buffer d' = tx_buffer (serial s) ++ flat_map emitted code
  /\ tx_count d' = tx_count (serial s) + total_length (flat_map emitted code)
  /\ rx_buffer d' = rx_buffer (serial s)
  /\ rx_count d' = rx_count (serial s).
Proof.
  revert s. induction code as [| line rest IH]; intros s.
  - cbn. rewrite app_nil_r. repeat split. lia.
  - cbn [parse_and_execute_code flat_map].
    destruct (IH (final_state (execute_line line s))) as (Hb & Hc & Hr & Hn).
    destruct (execute_line_log line s) as (Hb1 & Hc1 & Hr1 & Hn1).
    cbn zeta. rewrite Hb, Hc, Hr, Hn, Hb1, Hc1, Hr1, Hn1.
    rewrite total_length_app, app_assoc. repeat split. lia.
Qed.

(** X7: The transmit log is first in, first out: after any routine it is the log
    from before followed by the texts of the routine's serial lines in program
    order (the announcement of [Serial.begin], the text plus a line feed for
    [Serial.println], the text itself for [Serial.print]), whatever the pins,
    the delays and the speed; the transmit count grows by the total length of
    those texts, and the receive side is not touched. *)
Theorem transmit_log_is_fifo (code : list Line) (s : AVRSimulator) :
  let d' := serial (parse_and_execute_code code s) in
  tx_buffer d' = tx_buffer (serial s) ++ flat_map emitted code
  /\ tx_count d' = tx_count (serial s) + total_length (flat_map emitted code)
  /\ rx_buffer d' = rx_buffer (serial s)
  /\ rx_count d' = rx_count (serial s).
Proof. exact (parse_and_execute_code_log code s). Qed.

(** X9: [send_serial_input]: an empty entry does nothing; a text is queued with a
    line feed in the receive buffer and echoed as [">> text\n"] in the
    transmit log, which adds the text's length plus 4 to the transmit count;
    the receive count is never incremented. *)
Theorem send_serial_input_queues_and_echoes
  (input_text : string) (s : AVRSimulator) :
  let d := serial s in
  let d' := serial (send_serial_input input_text s) in
  (input_text = EmptyString -> send_serial_input input_text s = s)
  /\ (input_text <> EmptyString ->
      rx_buffer d' = rx_buffer d ++ [(input_text ++ newline)%string]
      /\ tx_buffer d' = tx_buffer d ++ [(">> " ++ input_text ++ newline)%string]
      /\ tx_count d' = tx_count d + Z.of_nat (String.length input_text) + 4)
  /\ rx_count d' = rx_count d
  /\ pins (send_serial_input input_text s) = pins s
  /\ simulation_time (send_serial_input input_text s) = simulation_time s.
Proof.
  destruct input_text as [| c rest].
  - cbn zeta. split; [reflexivity |].
    split; [intros Hne; contradiction | now cbn].
  - cbn zeta. split; [discriminate |].
    split; [| now cbn].
    intros _. unfold send_serial_input.
    rewrite serial_output_log, serial_output_count.
    cbn [serial with_serial tx_buffer rx_buffer tx_count].
    repeat split.
    rewrite !string_length_append. cbn. lia.
Qed.

(** ** What the interpreter leaves alone *)

Lemma left_alone_refl (s : AVRSimulator) : left_alone s s.
Proof. unfold left_alone. repeat split. Qed.

Lemma left_alone_trans (s1 s2 s3 : AVRSimulator) :
  left_alone s1 s2 -> left_alone s2 s3 -> left_alone s1 s3.
Proof.
  unfold left_alone.
  intros (Ht & Hv & Hr & Hu & Hc & Hs & Hl & Hp)
         (Ht' & Hv' & Hr' & Hu' & Hc' & Hs' & Hl' & Hp').
  repeat split; try congruence.
  - destruct (Hp k) as [H1 _], (Hp' k) as [H2 _]. congruence.
  - destruct (Hp k) as [_ H1], (Hp' k) as [_ H2]. congruence.
Qed.

Lemma left_alone_alter (f : GPIOPin -> GPIOPin) (pin : Z) (s : AVRSimulator) :
  (forall p : GPIOPin, analog_value (f p) = analog_value p) ->
  (forall p : GPIOPin, number (f p) = number p) ->
  left_alone s (with_pins (alter f pin (pins s)) s).
Proof.
  intros Ha Hn. unfold left_alone. cbn. repeat split.
  - now apply lookup_alter_field.
  - now apply lookup_alter_field.
Qed.

Lemma left_alone_execute_line (line : Line) (s : AVRSimulator) :
  left_alone s (final_state (execute_line line s)).
Proof.
  destruct line; cbn [execute_line final_state];
    try apply left_alone_refl.
  - unfold arduino_pinMode. destruct (pins s !! pin); [| apply left_alone_refl].
    destruct (mode_of_name mode_name); [| apply left_alone_refl].
    now apply left_alone_alter.
  - unfold arduino_digitalWrite.
    destruct (pins s !! pin) as [p |]; [| apply left_alone_refl].
    destruct (decide (mode p = OUTPUT)); [| apply left_alone_refl].
    now apply left_alone_alter.
  - unfold arduino_analogWrite.
    destruct (pins s !! pin); [| apply left_alone_refl].
    now apply left_alone_alter.
  - unfold left_alone. cbn. repeat split.
  - unfold left_alone. cbn. repeat split.
  - unfold left_alone. cbn. repeat split.
  - destruct (delay_changes_time_only ms s) as [t ->].
    unfold left_alone. cbn. repeat split.
Qed.

Lemma left_alone_parse_and_execute_code (code : list Line) (s : AVRSimulator) :
  left_alone s (parse_and_execute_code code s).
Proof.
  revert s. induction code as [| line rest IH]; intros s.
  - apply left_alone_refl.
  - cbn [parse_and_execute_code].
    eapply left_alone_trans; [apply left_alone_execute_line | apply IH].
Qed.

(** X10: No routine, whatever its lines, changes a timer, an analog value, a pin
    number, the set of pins, the speed, the run flags, the clock frequency or
    the stored routines: the interpreter writes only pin modes, levels, PWM
    fields and change times, the serial channel and the simulated time. *)
Theorem interpreter_leaves_alone (code : list Line) (s : AVRSimulator) :
  let s' := parse_and_execute_code code s in
  timers s' = timers s
  /\ speed_var s' = speed_var s
  /\ sim_running s' = sim_running s
  /\ running s' = running s
  /\ clock_frequency s' = clock_frequency s
  /\ setup_code s' = setup_code s
  /\ loop_code s' = loop_code s
  /\ dom (pins s') = dom (pins s)
  /\ forall k : Z,
      analog_value <$> pins s' !! k = analog_value <$> pins s !! k
      /\ number <$> pins s' !! k = number <$> pins s !! k.
Proof.
  cbn zeta.
  destruct (left_alone_parse_and_execute_code code s)
    as (Ht & Hv & Hr & Hu & Hc & Hs & Hl & Hp).
  repeat split; try assumption; try apply Hp.
  apply dom_parse_and_execute_code.
Qed.

(** ** Reset as an undo *)

Lemma fmap_alter_absorbed {A B : Type} (f : A -> B) (g : A -> A)
  (i : Z) (m : gmap Z A) :
  (forall a : A, f (g a) = f a) ->
  f <$> alter g i m = f <$> m.
Proof.
  intros Hfg. apply map_eq. intros k. rewrite !lookup_fmap.
  apply (lookup_alter_field f g i k m Hfg).
Qed.

(** X11: Resetting twice is resetting once. *)
Theorem reset_simulation_idempotent (s : AVRSimulator) :
  reset_simulation (reset_simulation s) = reset_simulation s.
Proof.
  unfold reset_simulation, stop_simulation. cbn. f_equal.
  - rewrite <- map_fmap_compose. now apply map_fmap_ext.
  - rewrite <- map_fmap_compose. now apply map_fmap_ext.
Qed.

Lemma reset_after_alter (f : GPIOPin -> GPIOPin) (pin : Z) (s : AVRSimulator) :
  (forall p : GPIOPin, reset_pin (f p) = reset_pin p) ->
  reset_simulation (with_pins (alter f pin (pins s)) s) = reset_simulation s.
Proof.
  intros Hf. unfold reset_simulation, stop_simulation. cbn. f_equal.
  now apply fmap_alter_absorbed.
Qed.

Lemma reset_after_line (line : Line) (s : AVRSimulator) :
  configures line = false ->
  reset_simulation (final_state (execute_line line s)) = reset_simulation s.
Proof.
  destruct line; cbn [configures execute_line final_state];
    try discriminate; intros _; try reflexivity.
  - unfold arduino_digitalWrite.
    destruct (pins s !! pin) as [p |]; [| reflexivity].
    destruct (decide (mode p = OUTPUT)); [| reflexivity].
    now apply reset_after_alter.
  - unfold arduino_analogWrite.
    destruct (pins s !! pin); [| reflexivity].
    now apply reset_after_alter.
  - now destruct (delay_changes_time_only ms s) as [t ->].
Qed.

(** X12: Reset undoes a routine that neither sets a pin mode nor opens the serial
    channel: resetting after it gives the state that resetting before it
    gives.  (Pin modes and the baud rate are what a reset keeps.) *)
Theorem reset_undoes_routine (code : list Line) (s : AVRSimulator) :
  forallb (fun line => negb (configures line)) code = true ->
  reset_simulation (parse_and_execute_code code s) = reset_simulation s.
Proof.
  revert s. induction code as [| line rest IH]; intros s Hcode.
  - reflexivity.
  - cbn [forallb] in Hcode. apply andb_prop in Hcode as [Hline Hrest].
    cbn [parse_and_execute_code]. rewrite (IH _ Hrest).
    apply reset_after_line. now apply negb_true_iff.
Qed.

(** Reset after two runs of the example loop. *)
Lemma reset_undoes_routine_witness :
  forallb (fun line => negb (configures line)) (example_loop ++ example_loop)
  = true
  /\ reset_simulation
       (parse_and_execute_code (example_loop ++ example_loop) new_simulator)
     = reset_simulation new_simulator.
Proof.
  assert (Hcode : forallb (fun line => negb (configures line))
                          (example_loop ++ example_loop) = true)
    by reflexivity.
  split; [exact Hcode |].
  exact (reset_undoes_routine (example_loop ++ example_loop) new_simulator
                              Hcode).
Defined.

(** ** The speed setting *)

Lemma delay_returns_outcome (ms : Z) (s : AVRSimulator) (x : float) :
  Float64.of_int ms = Ok x ->
  delay_returns (time_sleep s) (speed_var s) ms = true ->
  arduino_delay ms s
  = Returned (with_simulation_time
                (Float64.add (simulation_time s) (Float64.div x Float64.thousand))
                s).
Proof.
  intros Hx. unfold delay_returns, arduino_delay.
  rewrite (int_truediv_converted ms x Hx).
  destruct (Float64.truediv _ (speed_var s)) as [y | e]; [| discriminate].
  destruct (Float64.ltb Float64.milli y); [| reflexivity].
  now destruct (time_sleep s y).
Qed.

Lemma execute_line_at_other_speed (line : Line) (s : AVRSimulator) (v : float) :
  sleeps_through (time_sleep s) (speed_var s) line = true ->
  sleeps_through (time_sleep s) v line = true ->
  final_state (execute_line line (with_speed_var v s))
  = with_speed_var v (final_state (execute_line line s)).
Proof.
  intros Hs Hv.
  destruct line; cbn [execute_line final_state]; try reflexivity.
  - unfold arduino_pinMode. cbn. destruct (pins s !! pin); [| reflexivity].
    now destruct (mode_of_name mode_name).
  - unfold arduino_digitalWrite. cbn.
    destruct (pins s !! pin) as [p |]; [| reflexivity].
    now destruct (decide (mode p = OUTPUT)).
  - unfold arduino_analogWrite. cbn. now destruct (pins s !! pin).
  - cbn [sleeps_through] in Hs, Hv.
    destruct (Float64.of_int ms) as [x | e] eqn:Hx.
    + rewrite (delay_returns_outcome ms s x Hx Hs).
      now rewrite (delay_returns_outcome ms (with_speed_var v s) x Hx Hv).
    + unfold arduino_delay, Float64.int_truediv. now rewrite Hx.
Qed.

Lemma parse_at_other_speed (code : list Line) (s : AVRSimulator) (v : float) :
  forallb (sleeps_through (time_sleep s) (speed_var s)) code = true ->
  forallb (sleeps_through (time_sleep s) v) code = true ->
  parse_and_execute_code code (with_speed_var v s)
  = with_speed_var v (parse_and_execute_code code s).
Proof.
  revert s. induction code as [| line rest IH]; intros s Hs Hv.
  - reflexivity.
  - cbn [forallb] in Hs, Hv.
    apply andb_prop in Hs as [Hs1 Hs2]. apply andb_prop in Hv as [Hv1 Hv2].
    cbn [parse_and_execute_code].
    rewrite (execute_line_at_other_speed line s v Hs1 Hv1).
    destruct (scheduler_inputs_execute_line line s) as (Hspeed & Hsleep & _).
    cbn zeta in Hspeed, Hsleep.
    apply IH; now rewrite ?Hspeed, ?Hsleep.
Qed.

Lemma speed_var_parse (code : list Line) (s : AVRSimulator) :
  speed_var (parse_and_execute_code code s) = speed_var s.
Proof. now destruct (left_alone_parse_and_execute_code code s) as (_ & Hv & _). Qed.

Lemma completed_passes_at_other_speed (n : nat) (s : AVRSimulator) (v : float) :
  forallb (sleeps_through (time_sleep s) (speed_var s)) (loop_code s) = true ->
  forallb (sleeps_through (time_sleep s) v) (loop_code s) = true ->
  completed_passes n (with_speed_var v s)
  = with_speed_var v (completed_passes n s).
Proof.
  revert s. induction n as [| n IH]; intros s Hs Hv; [reflexivity |].
  cbn [completed_passes].
  assert (Hpass : completed_pass (with_speed_var v s)
                  = with_speed_var v (completed_pass s)).
  { unfold completed_pass, execute_loop. cbn [loop_code with_speed_var].
    now rewrite (parse_at_other_speed _ s v Hs Hv). }
  rewrite Hpass.
  destruct (scheduler_inputs_completed_pass s) as (Hspeed & Hsleep & _ & Hloop).
  apply IH; now rewrite ?Hspeed, ?Hsleep, ?Hloop.
Qed.

Lemma scheduler_inputs_execute_setup (s : AVRSimulator) :
  speed_var (execute_setup s) = speed_var s
  /\ time_sleep (execute_setup s) = time_sleep s
  /\ sim_running (execute_setup s) = sim_running s
  /\ loop_code (execute_setup s) = loop_code s.
Proof.
  unfold execute_setup. cbn. apply (scheduler_inputs_parse (setup_code s) s).
Qed.

Lemma loop_iterations_stopped (loop_times : list float) (s : AVRSimulator) :
  sim_running s = false -> loop_iterations loop_times s = Returned s.
Proof. intros Hrun. destruct loop_times; cbn; [reflexivity | now rewrite Hrun]. Qed.

(** X13: As long as every sleep is accepted, the speed setting changes
    nothing but itself.  If each delay of a routine returns both at the
    current speed and at another speed [v] (a delay whose argument does not
    convert raises at every speed and does not count), the routine run after
    selecting [v] gives the state that the run at the current speed gives,
    with [v] selected.  The same holds of the scheduler for equally many
    passes, whatever wall-clock times the passes take at the two speeds, if
    the delays of both routines return and every pacing returns. *)
Theorem speed_changes_nothing_else
  (code : list Line) (s : AVRSimulator) (v : float) :
  forallb (sleeps_through (time_sleep s) (speed_var s)) code = true ->
  forallb (sleeps_through (time_sleep s) v) code = true ->
  parse_and_execute_code code (with_speed_var v s)
  = with_speed_var v (parse_and_execute_code code s)
  /\ forall loop_times loop_times' : list float,
      code = setup_code s ++ loop_code s ->
      length loop_times' = length loop_times ->
      Forall (fun t => pace (time_sleep s) (speed_var s) t = Ok tt) loop_times ->
      Forall (fun t => pace (time_sleep s) v t = Ok tt) loop_times' ->
      simulation_loop loop_times' (with_speed_var v s)
      = with_speed_var v (simulation_loop loop_times s).
Proof.
  intros Hs Hv. split; [now apply parse_at_other_speed |].
  intros loop_times loop_times' -> Hlen Hpace Hpace'.
  rewrite forallb_app in Hs, Hv.
  apply andb_prop in Hs as [Hs1 Hs2]. apply andb_prop in Hv as [Hv1 Hv2].
  unfold simulation_loop.
  assert (Hsetup : execute_setup (with_speed_var v s)
                   = with_speed_var v (execute_setup s)).
  { unfold execute_setup. cbn [setup_code with_speed_var].
    now rewrite (parse_at_other_speed _ s v Hs1 Hv1). }
  rewrite Hsetup.
  destruct (scheduler_inputs_execute_setup s) as (Hspeed & Hsleep & Hrun & Hloop).
  set (x := execute_setup s) in *.
  destruct (sim_running x) eqn:Hx.
  - rewrite (loop_iterations_complete loop_times x Hx);
      [| now rewrite Hspeed, Hsleep].
    rewrite (loop_iterations_complete loop_times' (with_speed_var v x) Hx);
      [| cbn [time_sleep speed_var with_speed_var]; now rewrite Hsleep].
    cbn [final_state]. rewrite Hlen.
    rewrite (completed_passes_at_other_speed _ x v);
      [reflexivity | |]; now rewrite ?Hspeed, ?Hsleep, ?Hloop.
  - rewrite (loop_iterations_stopped loop_times x Hx).
    now rewrite (loop_iterations_stopped loop_times' (with_speed_var v x) Hx).
Qed.

(** The example sketch at "10x" instead of "1x": passes of two seconds at
    "1x" and of a fifth of a second at "10x". *)
Lemma speed_changes_nothing_else_witness :
  let started := with_sim_running true (reset_simulation example_simulator) in
  let code := example_setup ++ example_loop in
  let ten := Float64.of_Z 10 in
  let fifth := Float64.div (Float64.of_Z 1) (Float64.of_Z 5) in
  forallb (sleeps_through (time_sleep started) (speed_var started)) code = true
  /\ forallb (sleeps_through (time_sleep started) ten) code = true
  /\ simulation_loop [fifth; fifth; fifth] (with_speed_var ten started)
     = with_speed_var ten
         (simulation_loop [Float64.two; Float64.two; Float64.two] started).
Proof.
  intros started code ten fifth.
  assert (Hs : forallb (sleeps_through (time_sleep started) (speed_var started))
                       code = true).
  { vm_compute. reflexivity. }
  assert (Hv : forallb (sleeps_through (time_sleep started) ten) code = true).
  { vm_compute. reflexivity. }
  split; [exact Hs | split; [exact Hv |]].
  destruct (speed_changes_nothing_else code started ten Hs Hv) as [_ Hloop].
  apply Hloop; [reflexivity | reflexivity | |].
  - repeat (apply Forall_cons; split; [vm_compute; reflexivity |]).
    apply Forall_nil. constructor.
  - repeat (apply Forall_cons; split; [vm_compute; reflexivity |]).
    apply Forall_nil. constructor.
Defined.

(** ** What holds in every state the calls reach *)

Lemma init_gpio_pins_keys (k : Z) :
  k ∈ dom init_gpio_pins <-> 0 <= k < 20.
Proof.
  assert (Hdom : dom init_gpio_pins = list_to_set (seqZ 0 20)).
  { vm_compute. reflexivity. }
  rewrite Hdom, elem_of_list_to_set, elem_of_seqZ. lia.
Qed.

Lemma in_order_same_parts (s s' : AVRSimulator) :
  pins s' = pins s -> timers s' = timers s -> serial s' = serial s ->
  in_order s -> in_order s'.
Proof. unfold in_order. now intros -> -> ->. Qed.

Lemma pins_in_order_alter
  (f : GPIOPin -> GPIOPin) (pin : Z) (m : gmap Z GPIOPin) :
  (forall k p, pin_in_order k p -> pin_in_order k (f p)) ->
  map_Forall pin_in_order m -> map_Forall pin_in_order (alter f pin m).
Proof.
  intros Hf Hm k p' Hk. destruct (decide (pin = k)) as [-> | Hne].
  - rewrite lookup_alter_eq in Hk. destruct (m !! k) as [p |] eqn:E;
      [| discriminate].
    injection Hk as <-. apply Hf. now apply Hm.
  - rewrite lookup_alter_ne in Hk by exact Hne. now apply Hm.
Qed.

Lemma pin_in_order_set_mode (m : PinMode) (k : Z) (p : GPIOPin) :
  pin_in_order k p -> pin_in_order k (set_mode m p).
Proof. now unfold pin_in_order. Qed.

Lemma pin_in_order_set_state (v : PinState) (t : float) (k : Z) (p : GPIOPin) :
  pin_in_order k p -> pin_in_order k (set_state v t p).
Proof. now unfold pin_in_order. Qed.

Lemma pin_in_order_set_level (v : PinState) (k : Z) (p : GPIOPin) :
  pin_in_order k p -> pin_in_order k (set_level v p).
Proof. now unfold pin_in_order. Qed.

Lemma pin_in_order_set_pwm (value k : Z) (p : GPIOPin) :
  pin_in_order k p -> pin_in_order k (set_pwm (Z.max 0 (Z.min 255 value)) p).
Proof.
  unfold pin_in_order. cbn. intros (Hn & _ & _).
  split; [exact Hn | split; [lia | discriminate]].
Qed.

Lemma pin_in_order_reset_pin (k : Z) (p : GPIOPin) :
  pin_in_order k p -> pin_in_order k (reset_pin p).
Proof.
  unfold pin_in_order. cbn. intros (Hn & _ & _).
  split; [exact Hn | split; [lia | reflexivity]].
Qed.

#[local] Hint Resolve pins_in_order_alter pin_in_order_set_mode
  pin_in_order_set_state pin_in_order_set_level pin_in_order_set_pwm : registry.

Lemma pins_in_order_execute_line (line : Line) (s : AVRSimulator) :
  map_Forall pin_in_order (pins s) ->
  map_Forall pin_in_order (pins (final_state (execute_line line s))).
Proof.
  intros Hs. destruct line; cbn [execute_line final_state]; try exact Hs.
  - unfold arduino_pinMode. destruct (pins s !! pin); [| exact Hs].
    destruct (mode_of_name mode_name); [| exact Hs]. cbn. auto with registry.
  - unfold arduino_digitalWrite. destruct (pins s !! pin) as [p |]; [| exact Hs].
    destruct (decide (mode p = OUTPUT)); [| exact Hs]. cbn. auto with registry.
  - unfold arduino_analogWrite. destruct (pins s !! pin); [| exact Hs].
    cbn. auto with registry.
  - now rewrite pins_delay.
Qed.

Lemma in_order_execute_line (line : Line) (s : AVRSimulator) :
  in_order s -> in_order (final_state (execute_line line s)).
Proof.
  intros (Hd & Hp & Ht & Hc & Hr).
  destruct (execute_line_log line s) as (Hb1 & Hc1 & _ & Hn1).
  destruct (left_alone_execute_line line s) as (Ht1 & _).
  unfold in_order. rewrite dom_execute_line, Ht1, Hc1, Hb1, Hn1.
  rewrite total_length_app.
  split_and!; try assumption; [now apply pins_in_order_execute_line | lia].
Qed.

Lemma in_order_parse_and_execute_code (code : list Line) (s : AVRSimulator) :
  in_order s -> in_order (parse_and_execute_code code s).
Proof.
  revert s. induction code as [| line rest IH]; intros s Hs; [exact Hs |].
  cbn [parse_and_execute_code]. apply IH. now apply in_order_execute_line.
Qed.

Lemma in_order_serial_output (text : string) (s : AVRSimulator) :
  in_order s -> in_order (serial_output text s).
Proof.
  intros (Hd & Hp & Ht & Hc & Hr). unfold in_order. cbn.
  rewrite total_length_app. cbn.
  split_and!; try assumption. lia.
Qed.

Lemma in_order_send_serial_input (input_text : string) (s : AVRSimulator) :
  in_order s -> in_order (send_serial_input input_text s).
Proof.
  intros Hs. destruct input_text as [| c rest]; [exact Hs |].
  unfold send_serial_input. apply in_order_serial_output.
  destruct Hs as (Hd & Hp & Ht & Hc & Hr). unfold in_order. cbn.
  split_and!; assumption.
Qed.

Lemma in_order_set_pin_mode (pin : Z) (mode_name : string) (s : AVRSimulator) :
  in_order s -> in_order (set_pin_mode pin mode_name s).
Proof.
  intros (Hd & Hp & Ht & Hc & Hr). unfold set_pin_mode.
  destruct (pins s !! pin); [| now split_and!].
  repeat (destruct (String.eqb mode_name _));
    unfold in_order; cbn; rewrite ?dom_alter_L;
    split_and!; auto with registry.
Qed.

Lemma in_order_set_pin_state (pin : Z) (high : bool) (s : AVRSimulator) :
  in_order s -> in_order (set_pin_state pin high s).
Proof.
  intros (Hd & Hp & Ht & Hc & Hr). unfold set_pin_state.
  destruct (pins s !! pin) as [p |]; [| now split_and!].
  destruct (decide (mode p = OUTPUT)); [| now split_and!].
  unfold in_order. cbn. rewrite dom_alter_L.
  split_and!; auto with registry.
Qed.

Lemma reset_timers_of_init : reset_timer <$> init_timers = init_timers.
Proof.
  apply map_eq. intros k. rewrite lookup_fmap. unfold init_timers.
  destruct (decide (k = 2)) as [-> | H2]; [reflexivity |].
  destruct (decide (k = 1)) as [-> | H1]; [reflexivity |].
  destruct (decide (k = 0)) as [-> | H0]; [reflexivity |].
  rewrite !lookup_insert_ne by congruence. now rewrite lookup_empty.
Qed.

Lemma in_order_reset_simulation (s : AVRSimulator) :
  in_order s -> in_order (reset_simulation s).
Proof.
  intros (Hd & Hp & Ht & Hc & Hr). unfold in_order, reset_simulation. cbn.
  rewrite dom_fmap_L, Ht, reset_timers_of_init.
  split_and!; try assumption; try reflexivity.
  apply map_Forall_fmap. intros k p Hk. cbn.
  apply pin_in_order_reset_pin. now apply Hp.
Qed.

Lemma in_order_loop_iterations (loop_times : list float) (s : AVRSimulator) :
  in_order s -> in_order (final_state (loop_iterations loop_times s)).
Proof.
  revert s. induction loop_times as [| t rest IH]; intros s Hs; [exact Hs |].
  cbn [loop_iterations]. destruct (sim_running s); [| exact Hs].
  assert (Hpass : in_order (completed_pass s)).
  { apply (in_order_same_parts (execute_loop s)); try reflexivity.
    now apply in_order_parse_and_execute_code. }
  rewrite loop_iteration_outcome.
  destruct (pace _ _ t); [| exact Hpass].
  now apply IH.
Qed.

Lemma in_order_run_code (loop_times : list float) (s : AVRSimulator) :
  in_order s -> in_order (run_code loop_times s).
Proof.
  intros Hs. unfold run_code. destruct (sim_running s); [exact Hs |].
  unfold simulation_loop.
  apply (in_order_same_parts
           (final_state
              (loop_iterations loop_times
                 (execute_setup
                    (with_sim_running true (reset_simulation s))))));
    try reflexivity.
  apply in_order_loop_iterations. unfold execute_setup.
  apply in_order_serial_output, in_order_parse_and_execute_code.
  apply (in_order_same_parts (reset_simulation s)); try reflexivity.
  now apply in_order_reset_simulation.
Qed.

Lemma in_order_perform (c : call) (s : AVRSimulator) :
  in_order s -> in_order (perform c s).
Proof.
  intros Hs. destruct c; cbn [perform].
  - now apply in_order_parse_and_execute_code.
  - now apply in_order_send_serial_input.
  - now apply in_order_set_pin_mode.
  - now apply in_order_set_pin_state.
  - now apply (in_order_same_parts s).
  - now apply in_order_run_code.
  - now apply (in_order_same_parts s).
  - now apply in_order_reset_simulation.
Qed.

Lemma in_order_new_simulator : in_order new_simulator.
Proof.
  unfold in_order. cbn. split_and!; try reflexivity.
  intros k p Hk.
  assert (Hin : k ∈ dom init_gpio_pins) by (apply elem_of_dom; eauto).
  apply init_gpio_pins_keys in Hin.
  assert (Hcases : k = 0 \/ k = 1 \/ k = 2 \/ k = 3 \/ k = 4 \/ k = 5 \/ k = 6
                   \/ k = 7 \/ k = 8 \/ k = 9 \/ k = 10 \/ k = 11 \/ k = 12
                   \/ k = 13 \/ k = 14 \/ k = 15 \/ k = 16 \/ k = 17
                   \/ k = 18 \/ k = 19) by lia.
  repeat (destruct Hcases as [-> | Hcases];
          [vm_compute in Hk; injection Hk as <-; vm_compute;
           repeat split; congruence |]).
  subst k. vm_compute in Hk. injection Hk as <-. vm_compute.
  repeat split; congruence.
Qed.

(** X15: Whatever calls are made on a new simulator, in whatever order
    (running routines, the scheduler, serial input, the panel's mode and level
    switches, stop, reset) and on whatever host, the registry always holds
    exactly the pins 0 to 19, each carrying its own number, with a PWM value
    within 0..255 that is 0 whenever PWM is disabled; the timers are as
    constructed (nothing ever advances them); the transmit count is the total
    length of the transmit log; and the receive count is 0, whatever was
    queued. *)
Theorem every_reached_state_is_in_order
  (sleep : float -> result unit) (calls : list call) :
  let s := perform_all calls (with_time_sleep sleep new_simulator) in
  (forall k : Z, is_Some (pins s !! k) <-> 0 <= k < 20)
  /\ map_Forall (fun k p =>
                   number p = k
                   /\ 0 <= pwm_value p <= 255
                   /\ (pwm_enabled p = false -> pwm_value p = 0)) (pins s)
  /\ timers s = init_timers
  /\ tx_count (serial s) = total_length (tx_buffer (serial s))
  /\ rx_count (serial s) = 0.
Proof.
  cbn zeta.
  assert (H : in_order (perform_all calls (with_time_sleep sleep new_simulator))).
  { unfold perform_all.
    assert (H0 : in_order (with_time_sleep sleep new_simulator)).
    { apply (in_order_same_parts new_simulator); try reflexivity.
      apply in_order_new_simulator. }
    revert H0. generalize (with_time_sleep sleep new_simulator).
    induction calls as [| c rest IH]; intros s Hs.
    - exact Hs.
    - cbn [foldl]. apply IH. now apply in_order_perform. }
  destruct H as (Hd & Hp & Ht & Hc & Hr).
  split_and!; try assumption.
  intros k. split.
  - intros Hk. apply init_gpio_pins_keys. rewrite <- Hd.
    now apply elem_of_dom.
  - intros Hk. apply elem_of_dom. rewrite Hd.
    now apply init_gpio_pins_keys.
Qed.

(** ** The panel's mode switch *)

(** X5: The panel's [set_pin_mode] and the interpreter's [pinMode] are the same
    function of the simulator: same pins, same mode names, same result. *)
Theorem set_pin_mode_is_pinMode
  (pin : Z) (mode_name : string) (s : AVRSimulator) :
  set_pin_mode pin mode_name s = arduino_pinMode pin mode_name s.
Proof.
  unfold set_pin_mode, arduino_pinMode, mode_of_name.
  destruct (pins s !! pin); [| reflexivity].
  destruct (String.eqb mode_name "OUTPUT"); [reflexivity |].
  destruct (String.eqb mode_name "INPUT"); [reflexivity |].
  now destruct (String.eqb mode_name "INPUT_PULLUP").
Qed.

(** ** The scheduler *)

Lemma completed_pass_log (s : AVRSimulator) :
  tx_buffer (serial (completed_pass s))
  = tx_buffer (serial s) ++ flat_map emitted (loop_code s).
Proof.
  unfold completed_pass, execute_loop. cbn [serial with_simulation_time].
  now destruct (parse_and_execute_code_log (loop_code s) s) as (Hb & _).
Qed.

Lemma loop_iterations_log (loop_times : list float) (s : AVRSimulator) :
  sim_running s = true ->
  tx_buffer (serial (final_state (loop_iterations loop_times s)))
  = tx_buffer (serial s)
    ++ concat (replicate
                 (passes_made (time_sleep s) (speed_var s) loop_times)
                 (flat_map emitted (loop_code s))).
Proof.
  revert s. induction loop_times as [| t rest IH]; intros s Hrun.
  - cbn. now rewrite app_nil_r.
  - cbn [loop_iterations passes_made]. rewrite Hrun.
    rewrite loop_iteration_outcome.
    destruct (scheduler_inputs_completed_pass s) as (Hv & Hh & Hr & Hl).
    destruct (pace (time_sleep s) (speed_var s) t) as [u | e].
    + rewrite IH by congruence.
      rewrite Hv, Hh, Hl, completed_pass_log.
      cbn [replicate concat]. now rewrite app_assoc.
    + cbn [final_state replicate concat].
      now rewrite completed_pass_log, app_nil_r.
Qed.

(** X8: With the run flag raised, the transmit log after the scheduler has
    run is the log from before, then what the setup routine emits, then the
    line ["Arduino setup completed!\n"], then what the loop routine emits once
    for every pass made, in that order.  The scheduler makes a pass for each
    measured loop time until a pacing raises (the division by a zero speed,
    or a pacing sleep that the host refuses): that pass is its last, and its
    texts are in the log. *)
Theorem simulation_loop_log (loop_times : list float) (s : AVRSimulator) :
  sim_running s = true ->
  tx_buffer (serial (simulation_loop loop_times s))
  = tx_buffer (serial s)
    ++ flat_map emitted (setup_code s)
    ++ [("Arduino setup completed!" ++ newline)%string]
    ++ concat (replicate
                 (passes_made (time_sleep s) (speed_var s) loop_times)
                 (flat_map emitted (loop_code s))).
Proof.
  intros Hrun. unfold simulation_loop. cbn [serial with_sim_running].
  destruct (scheduler_inputs_execute_setup s) as (Hv & Hh & Hr & Hl).
  rewrite loop_iterations_log by congruence.
  rewrite Hv, Hh, Hl. unfold execute_setup. rewrite serial_output_log.
  destruct (parse_and_execute_code_log (setup_code s) s) as (Hb & _).
  cbn zeta in Hb. rewrite Hb. now rewrite <- !app_assoc.
Qed.

(** The example sketch, for two passes of two seconds. *)
Lemma simulation_loop_log_witness :
  let s := with_sim_running true (reset_simulation example_simulator) in
  sim_running s = true
  /\ passes_made (time_sleep s) (speed_var s) [Float64.two; Float64.two] = 2%nat
  /\ tx_buffer (serial (simulation_loop [Float64.two; Float64.two] s))
     = [("Serial communication started at 9600 baud" ++ newline)%string;
        ("Arduino LED Blink Started!" ++ newline)%string;
        ("Arduino setup completed!" ++ newline)%string;
        ("LED ON" ++ newline)%string; ("LED OFF" ++ newline)%string;
        ("LED ON" ++ newline)%string; ("LED OFF" ++ newline)%string].
Proof.
  intros s.
  assert (Hrun : sim_running s = true) by reflexivity.
  assert (Hmade : passes_made (time_sleep s) (speed_var s)
                              [Float64.two; Float64.two] = 2%nat).
  { vm_compute. reflexivity. }
  split; [exact Hrun | split; [exact Hmade |]].
  rewrite (simulation_loop_log [Float64.two; Float64.two] s Hrun), Hmade.
  vm_compute. reflexivity.
Defined.

(** At the speed 1e-13 the pacing sleep of 1e10 seconds is refused, and the
    scheduler stops after its first pass, however many it is given time for. *)
Example tiny_speed_one_pass :
  let tiny := Float64.div (Float64.of_Z 1) (Float64.of_Z (10 ^ 13)) in
  passes_made cpython_sleep tiny [Float64.zero; Float64.zero; Float64.zero]
  = 1%nat.
Proof. vm_compute. reflexivity. Qed.

Lemma loop_iteration_at_zero_speed (loop_time : float) (s : AVRSimulator) :
  Float64.eqb (speed_var s) Float64.zero = true ->
  loop_iteration loop_time s = Raised ZeroDivisionError (completed_pass s).
Proof.
  intros Hz. rewrite loop_iteration_outcome.
  unfold pace, Float64.truediv. now rewrite Hz.
Qed.

(** X14: At speed zero the scheduler makes one pass and stops: the pacing
    division raises ZeroDivisionError after the pass has added its
    millisecond, before any sleep and whatever time the pass took, so asking
    for more passes changes nothing, and the run flag ends cleared. *)
Theorem zero_speed_stops_scheduler
  (loop_time loop_time' : float) (rest : list float) (s : AVRSimulator) :
  Float64.eqb (speed_var s) Float64.zero = true ->
  simulation_loop (loop_time :: rest) s = simulation_loop [loop_time'] s
  /\ sim_running (simulation_loop (loop_time :: rest) s) = false.
Proof.
  intros Hz. split; [| reflexivity].
  unfold simulation_loop. f_equal. f_equal.
  set (x := execute_setup s).
  assert (Hx : Float64.eqb (speed_var x) Float64.zero = true).
  { destruct (scheduler_inputs_execute_setup s) as (Hv & _).
    subst x. now rewrite Hv. }
  cbn [loop_iterations]. destruct (sim_running x); [| reflexivity].
  now rewrite !(loop_iteration_at_zero_speed _ x Hx).
Qed.

(** The example sketch with the speed set to 0.0. *)
Lemma zero_speed_stops_scheduler_witness :
  let s :=
    with_speed_var Float64.zero
      (with_sim_running true (reset_simulation example_simulator)) in
  Float64.eqb (speed_var s) Float64.zero = true
  /\ simulation_time
       (simulation_loop [Float64.two; Float64.two; Float64.two] s)
     = Float64.milli.
Proof.
  intros s.
  assert (Hz : Float64.eqb (speed_var s) Float64.zero = true) by reflexivity.
  split; [exact Hz |].
  destruct (zero_speed_stops_scheduler Float64.two Float64.zero
              [Float64.two; Float64.two] s Hz) as [Hstop _].
  rewrite Hstop. vm_compute. reflexivity.
Defined.
